(** * Session-scoped Supabase MCP agent: a shallow embedding

    The development follows [MySupabaseMcpAgent.ts] (the session-scoped
    variant, with credentials held in the agent state) and [supabase.ts]
    (the client factory taking explicit credentials).

    - JavaScript strings are [string]s of 8-bit characters.
    - JavaScript numbers are IEEE-754 binary64 values, Rocq's primitive
      [float]s; [String(x)], [JSON.stringify] and [JSON.parse] follow
      ECMA-262.
    - [string | undefined] is [option string]; [undefined] is [None].
    - An asynchronous handler is a computation in the monad [M]: it reads
      and replaces the agent state, appends to a trace of observable
      interactions (client construction, remote calls, console output) and
      either returns a value or throws.
    - The libraries the agent calls are described by what the agent uses
      of them: zod schemas as partial functions on JSON values, with the
      URL test of [z.string().url()] a parameter; supabase-js as a client
      constructor that records the call and then returns a handle or
      raises an exception, and a remote call, the outcome of each a
      parameter; the MCP SDK as a registry that validates the input of a
      tool before it runs its handler. *)

From Stdlib Require Import String Ascii List Bool ZArith Lia Floats.
From Stdlib Require Import DecimalString DecimalN Permutation.
From Stdlib Require DecimalFacts.
From Stdlib Require Import QArith Qabs Qpower Lqa.
Close Scope Q_scope.
Import ListNotations.

Local Open Scope string_scope.

(** ** JavaScript values exchanged as JSON *)

Unset Elimination Schemes.
Inductive json : Type :=
| JNull
| JBool (b : bool)
| JNum (x : float)
| JStr (s : string)
| JArr (items : list json)
| JObj (members : list (string * json)).
Set Elimination Schemes.

(** Property lookup [o[k]]: [None] stands for [undefined]. *)
Fixpoint obj_get (k : string) (members : list (string * json)) : option json :=
  match members with
  | [] => None
  | (k', v) :: rest => if String.eqb k k' then Some v else obj_get k rest
  end.

(** Truthiness of a possibly-undefined string: [!!s]. *)
Definition truthy (s : option string) : bool :=
  match s with
  | Some s => negb (String.eqb s "")
  | None => false
  end.

(** ** Number::toString (ECMA-262, radix 10) *)

Section NumberToString.
Local Open Scope Z_scope.

(** Decimal numeral of a non-negative integer. *)
Definition decimal_of_Z (n : Z) : string :=
  NilZero.string_of_uint (N.to_uint (Z.to_N n)).

(** Comparisons between a decimal [s * 10^p] (with [pl <= p]) and a binary
    [q * 2^(e-2)] are made on integers, both sides scaled by the same
    power of ten and of two.  [q] counts quarters of the unit in the last
    place of a double [m * 2^e]. *)
Definition dec_val (pl e s p : Z) : Z :=
  s * 10 ^ (p - pl) * (10 ^ Z.max pl 0 * 2 ^ Z.max (2 - e) 0).
Definition bin_val (pl e q : Z) : Z :=
  q * (2 ^ Z.max (e - 2) 0 * 10 ^ Z.max (- pl) 0).

(** Does the real number [s * 10^p] round (to nearest, ties to even) to
    the double [m * 2^e]? *)
Definition rounds_to (pl m e s p : Z) : bool :=
  let below := if (m =? 2 ^ 52) && (-1074 <? e) then 1 else 2 in
  let lo := bin_val pl e (4 * m - below) in
  let hi := bin_val pl e (4 * m + 2) in
  let v := dec_val pl e s p in
  if Z.even m then (lo <=? v) && (v <=? hi) else (lo <? v) && (v <? hi).

(** Largest [p] with [10^p <= m * 2^e], searched downwards from [p]. *)
Fixpoint decimal_exponent (fuel : nat) (m e p : Z) : Z :=
  match fuel with
  | O => p
  | S fuel =>
      if dec_val p e 1 p <=? bin_val p e (4 * m) then p
      else decimal_exponent fuel m e (p - 1)
  end.

Definition distance (pl m e : Z) (c : Z * Z) : Z :=
  Z.abs (dec_val pl e (fst c) (snd c) - bin_val pl e (4 * m)).

(** Of two candidates keep the one nearer to [m * 2^e], the even one on a tie. *)
Definition nearer (pl m e : Z) (c1 c2 : Z * Z) : Z * Z :=
  match distance pl m e c1 ?= distance pl m e c2 with
  | Lt => c1
  | Gt => c2
  | Eq => if Z.even (fst c1) then c1 else c2
  end.

(** The candidates [(s, p)] with exactly [k] digits that round to
    [m * 2^e]; [p0] is the decimal exponent of [m * 2^e]. *)
Definition candidates (m e p0 k : Z) : list (Z * Z) :=
  let pl := p0 - k + 1 in
  filter
    (fun c => (10 ^ (k - 1) <=? fst c) && (fst c <? 10 ^ k)
              && rounds_to pl m e (fst c) (snd c))
    (flat_map
       (fun p => let f := bin_val p e (4 * m) / dec_val p e 1 p in [(f, p); (f + 1, p)])
       [pl; pl + 1]).

(** Shortest digit string: the least [k >= 1] with a [k]-digit [s] and an
    [n] such that [s * 10^(n-k)] rounds to [m * 2^e]; the result is
    [(s, k, n)]. *)
Fixpoint shortest (fuel : nat) (m e p0 k : Z) : Z * Z * Z :=
  match fuel with
  | O => (0, 1, 1)
  | S fuel =>
      match candidates m e p0 k with
      | [] => shortest fuel m e p0 (k + 1)
      | c :: cs =>
          let best := fold_left (nearer (p0 - k + 1) m e) cs c in
          (fst best, k, snd best + k)
      end
  end.

Definition zeros (n : Z) : string :=
  String.concat "" (repeat "0" (Z.to_nat n)).

Definition format_digits (s k n : Z) : string :=
  let ds := decimal_of_Z s in
  if (k <=? n) && (n <=? 21) then ds ++ zeros (n - k)
  else if (0 <? n) && (n <=? 21) then
    substring 0 (Z.to_nat n) ds ++ "." ++ substring (Z.to_nat n) (Z.to_nat (k - n)) ds
  else if (-6 <? n) && (n <=? 0) then "0." ++ zeros (- n) ++ ds
  else
    let ex := (if n - 1 <? 0 then "-" else "+") ++ decimal_of_Z (Z.abs (n - 1)) in
    if k =? 1 then ds ++ "e" ++ ex
    else substring 0 1 ds ++ "." ++ substring 1 (Z.to_nat (k - 1)) ds ++ "e" ++ ex.

Definition Number_toString (x : float) : string :=
  match Prim2SF x with
  | S754_nan => "NaN"
  | S754_zero _ => "0"
  | S754_infinity false => "Infinity"
  | S754_infinity true => "-Infinity"
  | S754_finite sign m e =>
      let estimate := (Z.log2 (Zpos m) + e) * 30103 / 100000 in
      let p0 := decimal_exponent 4 (Zpos m) e (estimate + 1) in
      let '(s, k, n) := shortest 17 (Zpos m) e p0 1 in
      (if sign then "-" else "") ++ format_digits s k n
  end.

End NumberToString.


(** ** JSON.stringify (ECMA-262 SerializeJSONProperty) *)

Definition dquote : ascii := "034".
Definition backslash : ascii := "092".
Definition nl : string := String "010" "".

Definition hex_digit (n : N) : ascii :=
  match String.get (N.to_nat n) "0123456789abcdef" with
  | Some c => c
  | None => "0"
  end.

(** The escape of one character, followed by [k]. *)
Definition quote_char (c : ascii) (k : string) : string :=
  if Ascii.eqb c "008" then String backslash (String "b" k)
  else if Ascii.eqb c "009" then String backslash (String "t" k)
  else if Ascii.eqb c "010" then String backslash (String "n" k)
  else if Ascii.eqb c "012" then String backslash (String "f" k)
  else if Ascii.eqb c "013" then String backslash (String "r" k)
  else if Ascii.eqb c dquote then String backslash (String dquote k)
  else if Ascii.eqb c backslash then String backslash (String backslash k)
  else if (N_of_ascii c <? 32)%N then
    String backslash (String "u" (String "0" (String "0"
      (String (hex_digit (N_of_ascii c / 16)) (String (hex_digit (N_of_ascii c mod 16)) k)))))
  else String c k.

Fixpoint quote_body (s k : string) : string :=
  match s with
  | EmptyString => k
  | String c s' => quote_char c (quote_body s' k)
  end.

(** [QuoteJSONString s k] is the quoted form of [s] followed by [k]. *)
Definition QuoteJSONString (s k : string) : string :=
  String dquote (quote_body s (String dquote k)).

(** The elements of an array after the first, and the members of an
    object after the first, each led by the separator, up to the closing
    bracket; [ser] writes one value at the inner indentation and [k] is
    the text that follows the closing bracket. *)
Section Composite.

Variable ser : json -> string -> string.
Variables separator colon closing k : string.

Fixpoint ser_elements (xs : list json) : string :=
  match xs with
  | [] => closing ++ "]" ++ k
  | y :: ys => separator ++ ser y (ser_elements ys)
  end.

Fixpoint ser_members (ms : list (string * json)) : string :=
  match ms with
  | [] => closing ++ "}" ++ k
  | (key, y) :: ms' =>
      separator ++ QuoteJSONString key (colon ++ ser y (ser_members ms'))
  end.

End Composite.

(** [SerializeJSONProperty gap indent v k] is the text of [v] followed by
    [k]; [indent] is the current indentation and [gap] the indentation
    unit (the empty string for the compact form). *)
Fixpoint SerializeJSONProperty (gap indent : string) (v : json) (k : string) : string :=
  let stepback := indent in
  let indent := indent ++ gap in
  let opening := if String.eqb gap "" then "" else nl ++ indent in
  let separator := if String.eqb gap "" then "," else "," ++ nl ++ indent in
  let closing := if String.eqb gap "" then "" else nl ++ stepback in
  let colon := if String.eqb gap "" then ":" else ": " in
  match v with
  | JNull => "null" ++ k
  | JBool true => "true" ++ k
  | JBool false => "false" ++ k
  | JNum x => (if is_finite x then Number_toString x else "null") ++ k
  | JStr s => QuoteJSONString s k
  | JArr [] => "[]" ++ k
  | JArr (x :: xs) =>
      "[" ++ opening ++
      SerializeJSONProperty gap indent x
        (ser_elements (SerializeJSONProperty gap indent) separator closing k xs)
  | JObj [] => "{}" ++ k
  | JObj ((key, x) :: ms) =>
      "{" ++ opening ++
      QuoteJSONString key (colon ++
      SerializeJSONProperty gap indent x
        (ser_members (SerializeJSONProperty gap indent) separator colon closing k ms))
  end.

(** [JSON.stringify(v, null, space)] for a numeric [space]. *)
Definition JSON_stringify (v : json) (space : nat) : string :=
  SerializeJSONProperty (String.concat "" (repeat " " (Nat.min space 10))) "" v "".

(** ** JSON.parse *)

Definition is_ws (c : ascii) : bool :=
  Ascii.eqb c " " || Ascii.eqb c "009" || Ascii.eqb c "010" || Ascii.eqb c "013".

Fixpoint skip_ws (s : string) : string :=
  match s with
  | String c s' => if is_ws c then skip_ws s' else s
  | EmptyString => s
  end.

Definition hex_value (c : ascii) : option N :=
  let n := N_of_ascii c in
  if (48 <=? n)%N && (n <=? 57)%N then Some (n - 48)%N
  else if (97 <=? n)%N && (n <=? 102)%N then Some (n - 87)%N
  else if (65 <=? n)%N && (n <=? 70)%N then Some (n - 55)%N
  else None.

(** The character with code unit [n], when it fits the 8-bit strings of
    this development. *)
Definition char_of_code_unit (n : N) : option ascii :=
  if (n <? 256)%N then Some (ascii_of_N n) else None.

Definition unescape (c : ascii) : option ascii :=
  if Ascii.eqb c dquote then Some dquote
  else if Ascii.eqb c backslash then Some backslash
  else if Ascii.eqb c "/" then Some "/"%char
  else if Ascii.eqb c "b" then Some "008"%char
  else if Ascii.eqb c "f" then Some "012"%char
  else if Ascii.eqb c "n" then Some "010"%char
  else if Ascii.eqb c "r" then Some "013"%char
  else if Ascii.eqb c "t" then Some "009"%char
  else None.

(** The characters of a string literal after its opening quote, up to and
    including the closing quote; the result is the string denoted and the
    text that follows. *)
Fixpoint parse_string_body (s : string) : option (string * string) :=
  match s with
  | EmptyString => None
  | String c r =>
      if Ascii.eqb c dquote then Some ("", r)
      else if Ascii.eqb c backslash then
        match r with
        | String "u" (String h1 (String h2 (String h3 (String h4 r')))) =>
            match hex_value h1, hex_value h2, hex_value h3, hex_value h4 with
            | Some d1, Some d2, Some d3, Some d4 =>
                match char_of_code_unit (((d1 * 16 + d2) * 16 + d3) * 16 + d4) with
                | Some c' =>
                    match parse_string_body r' with
                    | Some (t, rest) => Some (String c' t, rest)
                    | None => None
                    end
                | None => None
                end
            | _, _, _, _ => None
            end
        | String e r' =>
            match unescape e with
            | Some c' =>
                match parse_string_body r' with
                | Some (t, rest) => Some (String c' t, rest)
                | None => None
                end
            | None => None
            end
        | EmptyString => None
        end
      else if (N_of_ascii c <? 32)%N then None
      else
        match parse_string_body r with
        | Some (t, rest) => Some (String c t, rest)
        | None => None
        end
  end.

(** *** Numbers *)

Definition is_digit (c : ascii) : bool :=
  ((48 <=? N_of_ascii c) && (N_of_ascii c <=? 57))%N.

(** Reads [0-9]*: the value accumulated onto [acc], the number of digits
    read and the text that follows. *)
Fixpoint read_digits (s : string) (acc : Z) (count : Z) : Z * Z * string :=
  match s with
  | String c r =>
      if is_digit c
      then read_digits r (10 * acc + Z.of_N (N_of_ascii c - 48)) (count + 1)
      else (acc, count, s)
  | EmptyString => (acc, count, s)
  end.

(** The double nearest to [(-1)^neg * m * 10^e] (ties to even). *)
Definition float_of_decimal (neg : bool) (m e : Z) : float :=
  match m with
  | Zpos _ =>
      if (0 <=? e)%Z then
        SF2Prim (binary_normalize prec emax (if neg then (- (m * 10 ^ e))%Z else (m * 10 ^ e)%Z) 0 false)
      else
        let '(q, e', l) := SFdiv_core_binary prec emax m 0 (10 ^ (- e)) 0 in
        SF2Prim (binary_round_aux prec emax neg q e' l)
  | _ => if neg then neg_zero else zero
  end.

(** [. digit+], continuing the mantissa [m]: the new mantissa, the number
    of fraction digits and the text that follows. *)
Definition parse_fraction (m : Z) (s : string) : option (Z * Z * string) :=
  match s with
  | String "." r =>
      let '(m', count, rest) := read_digits r m 0 in
      if (count =? 0)%Z then None else Some (m', count, rest)
  | _ => Some (m, 0%Z, s)
  end.

(** [(e|E) (+|-)? digit+]: the exponent and the text that follows. *)
Definition parse_exponent (s : string) : option (Z * string) :=
  match s with
  | String c r =>
      if Ascii.eqb c "e" || Ascii.eqb c "E" then
        let '(neg, r') :=
          match r with
          | String "-" r' => (true, r')
          | String "+" r' => (false, r')
          | _ => (false, r)
          end in
        let '(x, count, rest) := read_digits r' 0 0 in
        if (count =? 0)%Z then None
        else Some (if neg then (- x)%Z else x, rest)
      else Some (0%Z, s)
  | EmptyString => Some (0%Z, s)
  end.

(** [-? (0 | [1-9] digit* ) fraction? exponent?] *)
Definition parse_number (s : string) : option (float * string) :=
  let '(neg, s1) :=
    match s with
    | String "-" r => (true, r)
    | _ => (false, s)
    end in
  match s1 with
  | String c r =>
      if is_digit c then
        let '(i, _, s2) := if Ascii.eqb c "0" then (0%Z, 1%Z, r) else read_digits s1 0 0 in
        match parse_fraction i s2 with
        | Some (m, count, s3) =>
            match parse_exponent s3 with
            | Some (e, rest) => Some (float_of_decimal neg m (e - count), rest)
            | None => None
            end
        | None => None
        end
      else None
  | EmptyString => None
  end.

(** *** Numerals read exactly *)






(** [-? (0 | [1-9] digit* ) fraction? exponent?] read exactly:
    [Some (m, p)] stands for [m * 10^p]. *)
Definition read_unsigned (s1 : string) : option (Z * Z) :=
  match s1 with
  | String c r =>
      if is_digit c then
        let '(i, _, s2) := if Ascii.eqb c "0" then (0%Z, 1%Z, r) else read_digits s1 0 0 in
        match parse_fraction i s2 with
        | Some (m, count, s3) =>
            match parse_exponent s3 with
            | Some (e, EmptyString) => Some (m, (e - count)%Z)
            | _ => None
            end
        | None => None
        end
      else None
  | EmptyString => None
  end.

(** The decimal numeral [s] read exactly: [Some (neg, m, p)] when the
    whole of [s] is a numeral, which then stands for
    [(-1)^neg * m * 10^p]. *)
Definition read_decimal (s : string) : option (bool * Z * Z) :=
  let '(neg, s1) :=
    match s with
    | String "-" r => (true, r)
    | _ => (false, s)
    end in
  match read_unsigned s1 with
  | Some (m, p) => Some (neg, m, p)
  | None => None
  end.




(** *** Values *)

(** [obj[k] = v] on an object under construction: an existing property
    keeps its place and takes the new value, a new one is added last. *)
Fixpoint obj_set (k : string) (v : json) (members : list (string * json))
  : list (string * json) :=
  match members with
  | [] => [(k, v)]
  | (k', v') :: rest =>
      if String.eqb k k' then (k', v) :: rest else (k', v') :: obj_set k v rest
  end.

Definition obj_of_pairs (pairs : list (string * json)) : list (string * json) :=
  fold_left (fun members kv => obj_set (fst kv) (snd kv) members) pairs [].

(** A recursive-descent parser; [fuel] bounds the nesting of calls.
    [parse_value] reads one value, [parse_elements] the elements of an
    array up to its closing bracket, [parse_members] the members of an
    object up to its closing brace. *)
Fixpoint parse_value (fuel : nat) (s : string) : option (json * string) :=
  match fuel with
  | O => None
  | S fuel =>
      match skip_ws s with
      | String "n" (String "u" (String "l" (String "l" r))) => Some (JNull, r)
      | String "t" (String "r" (String "u" (String "e" r))) => Some (JBool true, r)
      | String "f" (String "a" (String "l" (String "s" (String "e" r)))) =>
          Some (JBool false, r)
      | String "[" r =>
          match skip_ws r with
          | String "]" r' => Some (JArr [], r')
          | _ =>
              match parse_elements fuel r with
              | Some (items, r') => Some (JArr items, r')
              | None => None
              end
          end
      | String "{" r =>
          match skip_ws r with
          | String "}" r' => Some (JObj [], r')
          | _ =>
              match parse_members fuel r with
              | Some (pairs, r') => Some (JObj (obj_of_pairs pairs), r')
              | None => None
              end
          end
      | String c r =>
          if Ascii.eqb c dquote then
            match parse_string_body r with
            | Some (t, r') => Some (JStr t, r')
            | None => None
            end
          else
            match parse_number (String c r) with
            | Some (x, r') => Some (JNum x, r')
            | None => None
            end
      | EmptyString => None
      end
  end
with parse_elements (fuel : nat) (s : string) : option (list json * string) :=
  match fuel with
  | O => None
  | S fuel =>
      match parse_value fuel s with
      | Some (v, r) =>
          match skip_ws r with
          | String "," r' =>
              match parse_elements fuel r' with
              | Some (vs, r'') => Some (v :: vs, r'')
              | None => None
              end
          | String "]" r' => Some ([v], r')
          | _ => None
          end
      | None => None
      end
  end
with parse_members (fuel : nat) (s : string) : option (list (string * json) * string) :=
  match fuel with
  | O => None
  | S fuel =>
      match skip_ws s with
      | String c r =>
          if Ascii.eqb c dquote then
            match parse_string_body r with
            | Some (key, r1) =>
                match skip_ws r1 with
                | String ":" r2 =>
                    match parse_value fuel r2 with
                    | Some (v, r3) =>
                        match skip_ws r3 with
                        | String "," r4 =>
                            match parse_members fuel r4 with
                            | Some (ms, r5) => Some ((key, v) :: ms, r5)
                            | None => None
                            end
                        | String "}" r4 => Some ([(key, v)], r4)
                        | _ => None
                        end
                    | None => None
                    end
                | _ => None
                end
            | None => None
            end
          else None
      | EmptyString => None
      end
  end.

(** [JSON.parse(s)]; [None] stands for a [SyntaxError]. *)
Definition JSON_parse (s : string) : option json :=
  match parse_value (S (String.length s)) s with
  | Some (v, r) =>
      match skip_ws r with
      | EmptyString => Some v
      | _ => None
      end
  | None => None
  end.

(** ** Session state: [interface MyMCPState] *)

Record MyMCPState : Type := {
  isConfigured : bool;
  supabaseUrl : option string;
  supabaseAnonKey : option string;
  supabaseServiceKey : option string
}.

(** [initialState = { isConfigured: false }] *)
Definition initialState : MyMCPState :=
  {| isConfigured := false;
     supabaseUrl := None;
     supabaseAnonKey := None;
     supabaseServiceKey := None |}.

(** ** Tool results *)

Record ContentItem : Type := { type : string; text : string }.

Record Meta : Type := { isError : bool }.

(** [{ content: [...], _meta?: { isError: true } }] *)
Record ToolResult : Type := {
  content : list ContentItem;
  _meta : option Meta
}.

Definition text_item (s : string) : ContentItem := {| type := "text"; text := s |}.

(** [{ content: [{ type: 'text', text: s }] }] *)
Definition Ok (s : string) : ToolResult :=
  {| content := [text_item s]; _meta := None |}.

(** [{ content: [{ type: 'text', text: s }], _meta: { isError: true } }] *)
Definition Failure (s : string) : ToolResult :=
  {| content := [text_item s]; _meta := Some {| isError := true |} |}.

Definition is_failure (r : ToolResult) : bool :=
  match _meta r with
  | Some m => isError m
  | None => false
  end.

(** ** Effects *)

(** A handle returned by supabase-js [createClient(url, key)]. *)
Record SupabaseClient : Type := { client_url : string; client_key : string }.

(** Thrown values are [Error] objects; only [message] is ever read. *)
Record JsError : Type := { message : string }.

(** What a remote procedure call settles to: the promise either resolves
    to [{ data, error }] or rejects. *)
Inductive RpcResponse : Type :=
| Resolved (data : json) (error : option JsError)
| Rejected (e : JsError).

(** Observable interactions of a handler with its environment.  For
    [console.error(label, detail)] only the constant label is recorded. *)
Inductive Event : Type :=
| CreateClient (url key : string)
| Rpc (client : SupabaseClient) (fn : string) (args : json)
| ConsoleError (label : string).

Definition is_backend_event (e : Event) : bool :=
  match e with
  | CreateClient _ _ | Rpc _ _ _ => true
  | ConsoleError _ => false
  end.

Record World : Type := { state : MyMCPState; trace : list Event }.

Inductive Outcome (A : Type) : Type :=
| Ret (a : A)
| Throw (e : JsError).
Arguments Ret {A} a.
Arguments Throw {A} e.

Definition M (A : Type) : Type := World -> Outcome A * World.

Definition ret {A} (a : A) : M A := fun w => (Ret a, w).

Definition throw {A} (e : JsError) : M A := fun w => (Throw e, w).

Definition bind {A B} (m : M A) (f : A -> M B) : M B :=
  fun w =>
    match m w with
    | (Ret a, w') => f a w'
    | (Throw e, w') => (Throw e, w')
    end.

(** [try { body } catch (e) { handler(e) }] *)
Definition try_catch {A} (body : M A) (handler : JsError -> M A) : M A :=
  fun w =>
    match body w with
    | (Ret a, w') => (Ret a, w')
    | (Throw e, w') => handler e w'
    end.

(** [this.state] *)
Definition get_state : M MyMCPState := fun w => (Ret (state w), w).

(** [this.setState(s)]: the agent state is replaced by [s]. *)
Definition setState (s : MyMCPState) : M unit :=
  fun w => (Ret tt, {| state := s; trace := trace w |}).

Definition emit (e : Event) : M unit :=
  fun w => (Ret tt, {| state := state w; trace := trace w ++ [e] |}).

Declare Scope js_scope.
Delimit Scope js_scope with js.
Notation "x <- m ;; k" := (bind m (fun x => k))
  (at level 61, m at next level, right associativity) : js_scope.
Notation "m ;; k" := (bind m (fun _ => k))
  (at level 61, right associativity) : js_scope.
Local Open Scope js_scope.

Definition console_error (label : string) : M unit := emit (ConsoleError label).

(** ** supabase.ts *)

Section Supabase.

(** supabase-js [createClient(url, key)] validates the URL while it builds
    the handle and raises an exception on one it cannot use; no network
    traffic is involved.  [rejection url key] is that exception, [None]
    when the constructor returns. *)
Variable rejection : string -> string -> option JsError.

Definition createClient (url key : string) : M SupabaseClient :=
  emit (CreateClient url key) ;;
  match rejection url key with
  | Some e => throw e
  | None => ret {| client_url := url; client_key := key |}
  end.

Definition createSupabaseClient (supabaseUrl supabaseAnonKey : option string)
  : M SupabaseClient :=
  match supabaseUrl, supabaseAnonKey with
  | Some url, Some key =>
      if String.eqb url "" || String.eqb key ""
      then throw {| message := "Supabase URL and Anon Key are required to create a client." |}
      else createClient url key
  | _, _ =>
      throw {| message := "Supabase URL and Anon Key are required to create a client." |}
  end.

Definition createSupabaseServiceRoleClient (supabaseUrl supabaseServiceKey : option string)
  : M SupabaseClient :=
  match supabaseUrl, supabaseServiceKey with
  | Some url, Some key =>
      if String.eqb url "" || String.eqb key ""
      then throw {| message := "Supabase URL and Service Role Key are required to create a service role client." |}
      else createClient url key
  | _, _ =>
      throw {| message := "Supabase URL and Service Role Key are required to create a service role client." |}
  end.

End Supabase.

(** ** zod schemas

    A schema maps a value ([None] for [undefined]) to its parsed output,
    or fails. *)

Definition Schema (A : Type) : Type := option json -> option A.

(** [z.string()] *)
Definition z_string : Schema string :=
  fun v => match v with Some (JStr s) => Some s | _ => None end.

(** [z.number()]: any number but [NaN]. *)
Definition z_number : Schema float :=
  fun v =>
    match v with
    | Some (JNum x) => if is_nan x then None else Some x
    | _ => None
    end.

(** [schema.nullable()] *)
Definition z_nullable {A} (schema : Schema A) : Schema (option A) :=
  fun v =>
    match v with
    | Some JNull => Some None
    | _ => option_map Some (schema v)
    end.

(** [schema.optional()] *)
Definition z_optional {A} (schema : Schema A) : Schema (option A) :=
  fun v =>
    match v with
    | None => Some None
    | _ => option_map Some (schema v)
    end.

(** [z.array(schema)] *)
Definition z_array {A} (schema : Schema A) : Schema (list A) :=
  fun v =>
    match v with
    | Some (JArr items) =>
        fold_right
          (fun item acc =>
             match schema (Some item), acc with
             | Some a, Some l => Some (a :: l)
             | _, _ => None
             end)
          (Some []) items
    | _ => None
    end.

(** The element schema of [ListTablesOutputSchema]:
    [z.object({ schema: z.string(), name: z.string(),
                comment: z.string().nullable().optional() })].
    Unknown keys are stripped and the output lists the known keys in the
    order of the shape; an absent [comment] stays absent. *)
Definition table_entry : Schema json :=
  fun v =>
    match v with
    | Some (JObj members) =>
        match z_string (obj_get "schema" members),
              z_string (obj_get "name" members),
              z_optional (z_nullable z_string) (obj_get "comment" members) with
        | Some schema, Some name, Some comment =>
            Some (JObj ([("schema", JStr schema); ("name", JStr name)] ++
                        match comment with
                        | None => []
                        | Some None => [("comment", JNull)]
                        | Some (Some c) => [("comment", JStr c)]
                        end))
        | _, _, _ => None
        end
    | _ => None
    end.

(** [ListTablesOutputSchema.safeParse(data)]: [Some] is [success: true]
    with the parsed data. *)
Definition ListTablesOutputSchema (data : json) : option json :=
  option_map JArr (z_array table_entry (Some data)).

Definition listTablesSql : string :=
  "SELECT n.nspname as schema, c.relname as name, pgd.description as comment FROM pg_catalog.pg_class c JOIN pg_catalog.pg_namespace n ON n.oid = c.relnamespace LEFT JOIN pg_catalog.pg_description pgd ON pgd.objoid = c.oid AND pgd.objsubid = 0 WHERE c.relkind = 'r' AND n.nspname NOT IN ('pg_catalog', 'information_schema', 'pg_toast') AND n.nspname NOT LIKE 'pg_temp_%' AND n.nspname NOT LIKE 'pg_toast_temp_%' AND n.nspname NOT IN ('auth', 'storage', 'extensions', 'graphql', 'graphql_public', 'pgbouncer', 'realtime', 'supabase_functions', 'supabase_migrations', '_realtime') AND has_schema_privilege(n.oid, 'USAGE') AND has_table_privilege(c.oid, 'SELECT') ORDER BY n.nspname, c.relname".

(** Validated input of [configure_supabase_instance]. *)
Module Config.
Record input : Type := {
  supabaseUrl : string;
  supabaseAnonKey : string;
  supabaseServiceKey : option string
}.
End Config.

(** Validated input of [add]. *)
Module Add.
Record input : Type := { a : float; b : float }.
End Add.

(** A registered tool: [server.tool(name, description, shape, handler)]. *)
Record Tool : Type := {
  input : Type;
  shape : json -> option input;
  handler : input -> M ToolResult
}.

(** What a tool invocation comes to. *)
Inductive Dispatched : Type :=
| Handled (r : ToolResult)
| HandlerThrew (e : JsError)
| InvalidInput
| UnknownTool.

Section Agent.

(** The well-formedness test behind [z.string().url()]. *)
Variable is_url : string -> bool.

(** The exception of supabase-js [createClient(url, key)], if it raises
    one. *)
Variable rejection : string -> string -> option JsError.

(** The remote database: what [client.rpc(fn, args)] settles to. *)
Variable backend : SupabaseClient -> string -> json -> RpcResponse.

Definition rpc (client : SupabaseClient) (fn : string) (args : json)
  : M (json * option JsError) :=
  emit (Rpc client fn args) ;;
  match backend client fn args with
  | Resolved data error => ret (data, error)
  | Rejected e => throw e
  end.

(** [z.string().url()] *)
Definition z_string_url : Schema string :=
  fun v =>
    match z_string v with
    | Some s => if is_url s then Some s else None
    | None => None
    end.

(** [configShape] *)
Definition configShape (raw : json) : option Config.input :=
  match raw with
  | JObj members =>
      match z_string_url (obj_get "supabaseUrl" members),
            z_string (obj_get "supabaseAnonKey" members),
            z_optional z_string (obj_get "supabaseServiceKey" members) with
      | Some url, Some anon, Some service =>
          Some {| Config.supabaseUrl := url;
                  Config.supabaseAnonKey := anon;
                  Config.supabaseServiceKey := service |}
      | _, _, _ => None
      end
  | _ => None
  end.

Definition configure_supabase_instance_handler (input : Config.input)
  : M ToolResult :=
  setState {| isConfigured := true;
              supabaseUrl := Some (Config.supabaseUrl input);
              supabaseAnonKey := Some (Config.supabaseAnonKey input);
              supabaseServiceKey := Config.supabaseServiceKey input |} ;;
  ret (Ok ("Session configured for Supabase instance: " ++ Config.supabaseUrl input)).

(** [addToolShape] *)
Definition addToolShape (raw : json) : option Add.input :=
  match raw with
  | JObj members =>
      match z_number (obj_get "a" members), z_number (obj_get "b" members) with
      | Some a, Some b => Some {| Add.a := a; Add.b := b |}
      | _, _ => None
      end
  | _ => None
  end.

Definition add_handler (input : Add.input) : M ToolResult :=
  let a := Add.a input in
  let b := Add.b input in
  ret (Ok (Number_toString (a + b)%float)).

(** The empty shape [{}]: any object. *)
Definition emptyShape (raw : json) : option unit :=
  match raw with
  | JObj _ => Some tt
  | _ => None
  end.

Definition not_configured_message : string :=
  "Error: Supabase instance not configured for this session. Please call 'configure_supabase_instance' first.".

Definition list_tables_handler (_input : unit) : M ToolResult :=
  st <- get_state ;;
  if negb (isConfigured st) || negb (truthy (supabaseUrl st))
     || negb (truthy (supabaseAnonKey st))
  then ret (Failure not_configured_message)
  else
    supabase <- createSupabaseClient rejection (supabaseUrl st) (supabaseAnonKey st) ;;
    try_catch
      (response <- rpc supabase "execute_sql" (JObj [("query", JStr listTablesSql)]) ;;
       match snd response with
       | Some error =>
           console_error "Error from list_tables RPC:" ;;
           ret (Failure ("Failed to list tables: " ++ message error))
       | None =>
           match ListTablesOutputSchema (fst response) with
           | None =>
               console_error "Failed to parse list_tables output:" ;;
               ret (Failure "Failed to parse list_tables output.")
           | Some data => ret (Ok (JSON_stringify data 2))
           end
       end)
      (fun e =>
         console_error "Exception in list_tables tool:" ;;
         ret (Failure ("Exception: " ++ message e))).

(** The tools registered by [init], in registration order. *)
Definition init : list (string * Tool) :=
  [ ("configure_supabase_instance",
     {| shape := configShape; handler := configure_supabase_instance_handler |});
    ("add", {| shape := addToolShape; handler := add_handler |});
    ("list_tables", {| shape := emptyShape; handler := list_tables_handler |}) ].

Fixpoint find_tool (name : string) (tools : list (string * Tool)) : option Tool :=
  match tools with
  | [] => None
  | (n, t) :: rest => if String.eqb name n then Some t else find_tool name rest
  end.

(** Modelled from the spec: the tool registry's dispatch (the MCP SDK's
    request handler, which is not part of the sources).  "[dispatch] must:
    (1) fail with [UnknownTool] if [name] is not registered; (2) validate
    [rawInput] against the tool's schema, failing with [InvalidInput] on
    mismatch; (3) invoke the handler with the validated, typed input and
    current session state; (4) catch any exception raised by the handler". *)
Definition dispatch (name : string) (rawInput : json) : World -> Dispatched * World :=
  fun w =>
    match find_tool name init with
    | None => (UnknownTool, w)
    | Some tool =>
        match shape tool rawInput with
        | None => (InvalidInput, w)
        | Some input =>
            match handler tool input w with
            | (Ret r, w') => (Handled r, w')
            | (Throw e, w') => (HandlerThrew e, w')
            end
        end
    end.

End Agent.

(** ** Sessions *)

(** One tool invocation, with the behaviour of the remote database while
    it runs. *)
Record Call : Type := {
  call_backend : SupabaseClient -> string -> json -> RpcResponse;
  call_name : string;
  call_input : json
}.

(** The world of a freshly created agent. *)
Definition fresh : World := {| state := initialState; trace := [] |}.

(** The world after a sequence of invocations. *)
Fixpoint run (is_url : string -> bool) (rejection : string -> string -> option JsError)
  (calls : list Call) (w : World) : World :=
  match calls with
  | [] => w
  | c :: rest =>
      run is_url rejection rest
        (snd (dispatch is_url rejection (call_backend c) (call_name c) (call_input c) w))
  end.

(** The guard of [list_tables]: the session counts as configured when the
    flag is set and both credentials are truthy. *)
Definition ready (st : MyMCPState) : bool :=
  isConfigured st && truthy (supabaseUrl st) && truthy (supabaseAnonKey st).

(** The invariant as the specification words it: a configured session
    holds a non-empty URL and a non-empty anon key. *)
Definition credentials_nonempty (st : MyMCPState) : Prop :=
  isConfigured st = true ->
  truthy (supabaseUrl st) = true /\ truthy (supabaseAnonKey st) = true.

(** The invariant the handlers maintain: a configured session holds a URL
    accepted by the schema and an anon key that is a string. *)
Definition credentials_present (is_url : string -> bool) (st : MyMCPState) : Prop :=
  isConfigured st = true ->
  (exists url, supabaseUrl st = Some url /\ is_url url = true) /\
  (exists key, supabaseAnonKey st = Some key).

Definition backend_calls (w : World) : nat :=
  List.length (filter is_backend_event (trace w)).

(** A URL test used to exercise the statements on concrete inputs: it
    accepts the strings that start with an http or https scheme. *)
Definition http_url (s : string) : bool :=
  prefix "http://" s || prefix "https://" s.

Fixpoint has_blank (s : string) : bool :=
  match s with
  | EmptyString => false
  | String c s' => Ascii.eqb c " " || has_blank s'
  end.

(** A constructor used to exercise the statements on concrete inputs: it
    raises [Invalid URL] unless the URL starts with an http or https
    scheme and holds no blank. *)
Definition rejects_malformed (url key : string) : option JsError :=
  if http_url url && negb (has_blank url) then None
  else Some {| message := "Invalid URL" |}.

(** A remote database that holds no table. *)
Definition empty_database : SupabaseClient -> string -> json -> RpcResponse :=
  fun _ _ _ => Resolved (JArr []) None.

(** A session configured with an empty anon key. *)
Definition configure_with_empty_key : Call :=
  {| call_backend := empty_database;
     call_name := "configure_supabase_instance";
     call_input := JObj [("supabaseUrl", JStr "https://project.supabase.co");
                         ("supabaseAnonKey", JStr "")] |}.

(** A session configured with usable credentials. *)
Definition configure_project : Call :=
  {| call_backend := empty_database;
     call_name := "configure_supabase_instance";
     call_input := JObj [("supabaseUrl", JStr "https://project.supabase.co");
                         ("supabaseAnonKey", JStr "anon-key");
                         ("supabaseServiceKey", JStr "service-key")] |}.

(** ** Table listings *)

(** A record [{schema: string, name: string, comment: string|null}]. *)
Record TableRow : Type := {
  schema : string;
  name : string;
  comment : option string
}.

(** The members of the object that stands for a row, in column order. *)
Definition row_members (r : TableRow) : list (string * json) :=
  [("schema", JStr (schema r)); ("name", JStr (name r));
   ("comment", match comment r with Some c => JStr c | None => JNull end)].

Definition row_to_json (r : TableRow) : json := JObj (row_members r).

Definition listing (rows : list TableRow) : json := JArr (map row_to_json rows).

(** [v] is an object with exactly the three members of [r], in any order. *)
Definition encodes_row (v : json) (r : TableRow) : Prop :=
  exists members, v = JObj members /\ Permutation members (row_members r).

(** [data] is an array whose elements stand, in order, for [rows]. *)
Definition encodes (data : json) (rows : list TableRow) : Prop :=
  exists items, data = JArr items /\ Forall2 encodes_row items rows.

(** The shape [ListTablesOutputSchema] declares: an array of objects with
    a string [schema], a string [name] and a [comment] that is a string,
    [null] or left out; other members are ignored. *)
Definition entry_shape (v : json) : Prop :=
  exists members,
    v = JObj members /\
    (exists s, obj_get "schema" members = Some (JStr s)) /\
    (exists n, obj_get "name" members = Some (JStr n)) /\
    (obj_get "comment" members = None \/
     obj_get "comment" members = Some JNull \/
     exists c, obj_get "comment" members = Some (JStr c)).

Definition listing_shape (data : json) : Prop :=
  exists items, data = JArr items /\ Forall entry_shape items.

(** A table listing as the remote procedure returns it. *)
Definition sample_rows : list TableRow :=
  [ {| schema := "public"; name := "users"; comment := None |};
    {| schema := "public"; name := "orders"; comment := Some "Customer orders" |} ].

Definition sample_data : json :=
  JArr [ JObj [("schema", JStr "public"); ("name", JStr "users"); ("comment", JNull)];
         JObj [("name", JStr "orders"); ("comment", JStr "Customer orders");
               ("schema", JStr "public")] ].

Definition execute_sql_args : json := JObj [("query", JStr listTablesSql)].

(** ** Values that [JSON.parse] reads back *)

Fixpoint distinct (keys : list string) : bool :=
  match keys with
  | [] => true
  | k :: rest => negb (existsb (String.eqb k) rest) && distinct rest
  end.

(** Values without numbers whose objects have distinct keys. *)
Fixpoint textual (v : json) : bool :=
  match v with
  | JNull | JBool _ | JStr _ => true
  | JNum _ => false
  | JArr items => forallb textual items
  | JObj members =>
      distinct (map fst members) && forallb (fun kv => textual (snd kv)) members
  end.

(** A bound on the fuel [parse_value] needs to read a value back. *)
Fixpoint weight (v : json) : nat :=
  match v with
  | JNull | JBool _ | JNum _ | JStr _ => 1
  | JArr items => S (list_sum (map (fun x => S (weight x)) items))
  | JObj members => S (list_sum (map (fun kv => S (weight (snd kv))) members))
  end.

Fixpoint blank (s : string) : bool :=
  match s with
  | EmptyString => true
  | String c s' => is_ws c && blank s'
  end.

(** What the round trip claims of one value: enough fuel reads it back from
    its text at any indentation, whatever follows. *)
Definition reads_back (v : json) : Prop :=
  forall (indent k : string) (f : nat),
    blank indent = true -> weight v <= f ->
    parse_value f (SerializeJSONProperty "  " indent v k) = Some (v, k).

(** The text of a value is at least as long as the fuel that reads it back. *)
Definition fits (v : json) : Prop :=
  forall indent k : string,
    weight v + String.length k <= String.length (SerializeJSONProperty "  " indent v k).

(** ** Requests seen by the remote database *)

(** The two interactions of one [list_tables] call that passes the guard:
    a client is built, then asked for the table listing. *)
Definition request (c : SupabaseClient) : list Event :=
  [CreateClient (client_url c) (client_key c); Rpc c "execute_sql" execute_sql_args].

(** What one [list_tables] call that passes the guard does with the
    credentials [c]: the constructor is called, and the remote call follows
    when the constructor returned. *)
Definition attempt (rejection : string -> string -> option JsError) (c : SupabaseClient)
  : list Event :=
  match rejection (client_url c) (client_key c) with
  | None => request c
  | Some _ => [CreateClient (client_url c) (client_key c)]
  end.

Definition attempts (rejection : string -> string -> option JsError)
  (clients : list SupabaseClient) : list Event :=
  flat_map (attempt rejection) clients.

(** What holds of the trace throughout a session: the interactions with
    the remote database are the attempts made with some credentials, each
    a URL the schema accepted and a non-empty key. *)
Definition listed_only (is_url : string -> bool)
  (rejection : string -> string -> option JsError) (w : World) : Prop :=
  exists clients,
    filter is_backend_event (trace w) = attempts rejection clients /\
    Forall (fun c => is_url (client_url c) = true /\ client_key c <> "") clients.

(** The world with another service key in the session state. *)
Definition with_service_key (key : option string) (w : World) : World :=
  {| state := {| isConfigured := isConfigured (state w);
                 supabaseUrl := supabaseUrl (state w);
                 supabaseAnonKey := supabaseAnonKey (state w);
                 supabaseServiceKey := key |};
     trace := trace w |}.

(** The keys [ListTablesOutputSchema] knows. *)
Definition listed_key (k : string) : bool :=
  String.eqb k "schema" || String.eqb k "name" || String.eqb k "comment".

(** [out] keeps of the object [v] its listed members and nothing else. *)
Definition strips_entry (v out : json) : Prop :=
  exists members members',
    v = JObj members /\ out = JObj members' /\
    forall k, obj_get k members' = if listed_key k then obj_get k members else None.

Definition strips (data out : json) : Prop :=
  exists items outs,
    data = JArr items /\ out = JArr outs /\ Forall2 strips_entry items outs.

(** A listing with a column the query does not ask for and a row without
    comment. *)
Definition wide_data : json :=
  JArr [ JObj [("owner", JStr "postgres"); ("schema", JStr "public");
               ("name", JStr "users"); ("comment", JNull)];
         JObj [("schema", JStr "public"); ("name", JStr "orders")] ].

(** A remote database whose calls are rejected. *)
Definition unreachable_database : SupabaseClient -> string -> json -> RpcResponse :=
  fun _ _ _ => Rejected {| message := "fetch failed" |}.

(** ** The stateless variant: one client per worker, from the environment

    The earlier [supabase.ts] keeps its clients in module-level variables
    and the earlier agent reads its credentials from [this.env]. *)

Module Legacy.

(** [interface Env]; a variable may be missing at run time. *)
Record Env : Type := {
  SUPABASE_URL : option string;
  SUPABASE_ANON_KEY : option string;
  SUPABASE_SERVICE_ROLE_KEY : option string
}.

(** The interactions of the session-scoped variant, and [console.warn]. *)
Inductive Output : Type :=
| Did (e : Event)
| ConsoleWarn (msg : string).

(** The module-level variables [supabase] and [supabaseServiceRole]
    ([None] until assigned) and the trace. *)
Record World : Type := {
  supabase : option SupabaseClient;
  supabaseServiceRole : option SupabaseClient;
  trace : list Output
}.

Definition fresh : World :=
  {| supabase := None; supabaseServiceRole := None; trace := [] |}.

Definition M (A : Type) : Type := World -> Outcome A * World.

Definition ret {A} (a : A) : M A := fun w => (Ret a, w).

Definition throw {A} (e : JsError) : M A := fun w => (Throw e, w).

Definition bind {A B} (m : M A) (f : A -> M B) : M B :=
  fun w =>
    match m w with
    | (Ret a, w') => f a w'
    | (Throw e, w') => (Throw e, w')
    end.

Definition try_catch {A} (body : M A) (handler : JsError -> M A) : M A :=
  fun w =>
    match body w with
    | (Ret a, w') => (Ret a, w')
    | (Throw e, w') => handler e w'
    end.

Definition emit (o : Output) : M unit :=
  fun w => (Ret tt, {| supabase := supabase w;
                       supabaseServiceRole := supabaseServiceRole w;
                       trace := (trace w ++ [o])%list |}).

Definition get_supabase : M (option SupabaseClient) := fun w => (Ret (supabase w), w).

Definition set_supabase (c : SupabaseClient) : M unit :=
  fun w => (Ret tt, {| supabase := Some c;
                       supabaseServiceRole := supabaseServiceRole w;
                       trace := trace w |}).

Definition get_supabaseServiceRole : M (option SupabaseClient) :=
  fun w => (Ret (supabaseServiceRole w), w).

Definition set_supabaseServiceRole (c : SupabaseClient) : M unit :=
  fun w => (Ret tt, {| supabase := supabase w;
                       supabaseServiceRole := Some c;
                       trace := trace w |}).

Declare Scope legacy_scope.
Delimit Scope legacy_scope with legacy.
Notation "x <- m ;; k" := (bind m (fun x => k))
  (at level 61, m at next level, right associativity) : legacy_scope.
Notation "m ;; k" := (bind m (fun _ => k))
  (at level 61, right associativity) : legacy_scope.
Local Open Scope legacy_scope.

Definition console_error (label : string) : M unit := emit (Did (ConsoleError label)).

Definition console_warn (msg : string) : M unit := emit (ConsoleWarn msg).

Section Supabase.

(** The exception of supabase-js [createClient(url, key)], if it raises
    one. *)
Variable rejection : string -> string -> option JsError.

Definition createClient (url key : string) : M SupabaseClient :=
  emit (Did (CreateClient url key)) ;;
  match rejection url key with
  | Some e => throw e
  | None => ret {| client_url := url; client_key := key |}
  end.

(** [getSupabaseClient(env)]: the value returned is the module variable. *)
Definition getSupabaseClient (env : Env) : M (option SupabaseClient) :=
  cached <- get_supabase ;;
  match cached with
  | Some _ => ret tt
  | None =>
      match SUPABASE_URL env, SUPABASE_ANON_KEY env with
      | Some url, Some key =>
          if String.eqb url "" || String.eqb key ""
          then throw {| message := "Supabase URL and Anon Key are required in environment." |}
          else c <- createClient url key ;; set_supabase c
      | _, _ =>
          throw {| message := "Supabase URL and Anon Key are required in environment." |}
      end
  end ;;
  get_supabase.

(** [getSupabaseServiceRoleClient(env)]; [None] is [null]. *)
Definition getSupabaseServiceRoleClient (env : Env) : M (option SupabaseClient) :=
  match SUPABASE_SERVICE_ROLE_KEY env with
  | Some key =>
      if String.eqb key "" then
        console_warn "SUPABASE_SERVICE_ROLE_KEY not provided, service role client will not be available." ;;
        ret None
      else
        cached <- get_supabaseServiceRole ;;
        match cached with
        | Some _ => ret tt
        | None =>
            match SUPABASE_URL env with
            | Some url =>
                if String.eqb url ""
                then throw {| message := "Supabase URL is required in environment for service role client." |}
                else c <- createClient url key ;; set_supabaseServiceRole c
            | None =>
                throw {| message := "Supabase URL is required in environment for service role client." |}
            end
        end ;;
        get_supabaseServiceRole
  | None =>
      console_warn "SUPABASE_SERVICE_ROLE_KEY not provided, service role client will not be available." ;;
      ret None
  end.

End Supabase.

Definition listTablesSql : string :=
  String.concat nl
    [ "";
      "            SELECT";
      "                n.nspname as schema,";
      "                c.relname as name,";
      "                pgd.description as comment";
      "            FROM";
      "                pg_catalog.pg_class c";
      "            JOIN";
      "                pg_catalog.pg_namespace n ON n.oid = c.relnamespace";
      "            LEFT JOIN";
      "                pg_catalog.pg_description pgd ON pgd.objoid = c.oid AND pgd.objsubid = 0";
      "            WHERE";
      "                c.relkind = 'r'";
      "                AND n.nspname NOT IN ('pg_catalog', 'information_schema', 'pg_toast')";
      "                AND n.nspname NOT LIKE 'pg_temp_%'";
      "                AND n.nspname NOT LIKE 'pg_toast_temp_%'";
      "                AND n.nspname NOT IN ('auth', 'storage', 'extensions', 'graphql', 'graphql_public', 'pgbouncer', 'realtime', 'supabase_functions', 'supabase_migrations', '_realtime')";
      "                AND has_schema_privilege(n.oid, 'USAGE')";
      "                AND has_table_privilege(c.oid, 'SELECT')";
      "            ORDER BY";
      "                n.nspname,";
      "                c.relname";
      "        " ].

Section Agent.

Variable rejection : string -> string -> option JsError.

(** [this.env] *)
Variable env : Env.

Variable backend : SupabaseClient -> string -> json -> RpcResponse.

Definition rpc (client : SupabaseClient) (fn : string) (args : json)
  : M (json * option JsError) :=
  emit (Did (Rpc client fn args)) ;;
  match backend client fn args with
  | Resolved data error => ret (data, error)
  | Rejected e => throw e
  end.

(** What [init] does before it registers the tools [add] and
    [list_tables]. *)
Definition init : M unit :=
  try_catch
    (userClient <- getSupabaseClient rejection env ;;
     match userClient with
     | Some _ => ret tt
     | None => console_error "Failed to initialize Supabase user client in MyMCP init."
     end)
    (fun e => console_error "Error initializing Supabase client in MyMCP init:").

Definition add_handler (input : Add.input) : M ToolResult :=
  let a := Add.a input in
  let b := Add.b input in
  ret (Ok (Number_toString (a + b)%float)).

Definition list_tables_handler (_input : unit) : M ToolResult :=
  supabase <- getSupabaseClient rejection env ;;
  match supabase with
  | None => ret (Failure "Error: Supabase client not available.")
  | Some supabase =>
      try_catch
        (response <- rpc supabase "execute_sql" (JObj [("query", JStr listTablesSql)]) ;;
         match snd response with
         | Some error =>
             console_error "Error from list_tables RPC:" ;;
             ret (Failure ("Failed to list tables: " ++ message error))
         | None =>
             match ListTablesOutputSchema (fst response) with
             | None =>
                 console_error "Failed to parse list_tables output:" ;;
                 ret (Failure "Failed to parse list_tables output.")
             | Some data => ret (Ok (JSON_stringify data 2))
             end
         end)
        (fun e =>
           console_error "Exception in list_tables tool:" ;;
           ret (Failure ("Exception: " ++ message e)))
  end.

End Agent.

(** A text with every run of white space turned into one space and none
    at either end. *)
Fixpoint squeeze (pending : bool) (s : string) : string :=
  match s with
  | EmptyString => EmptyString
  | String c s' =>
      if is_ws c then squeeze true s'
      else if pending then String " " (String c (squeeze false s'))
      else String c (squeeze false s')
  end.

Definition words (s : string) : string := squeeze false (skip_ws s).

(** Has the environment what [getSupabaseClient] asks for? *)
Definition usable (env : Env) : bool :=
  truthy (SUPABASE_URL env) && truthy (SUPABASE_ANON_KEY env).

(** The number of clients built so far: the constructor calls that
    returned. *)
Definition clients_built (rejection : string -> string -> option JsError) (w : World) : nat :=
  List.length
    (filter (fun o =>
               match o with
               | Did (CreateClient url key) =>
                   match rejection url key with None => true | Some _ => false end
               | _ => false
               end)
       (trace w)).

(** The world after a sequence of [getSupabaseClient] calls, whatever
    each of them came to. *)
Fixpoint after_calls (rejection : string -> string -> option JsError)
  (envs : list Env) (w : World) : World :=
  match envs with
  | [] => w
  | env :: rest => after_calls rejection rest (snd (getSupabaseClient rejection env w))
  end.

(** Environments used to exercise the statements. *)
Definition project_env : Env :=
  {| SUPABASE_URL := Some "https://project.supabase.co";
     SUPABASE_ANON_KEY := Some "anon-key";
     SUPABASE_SERVICE_ROLE_KEY := None |}.

Definition other_env : Env :=
  {| SUPABASE_URL := Some "https://other.supabase.co";
     SUPABASE_ANON_KEY := Some "other-key";
     SUPABASE_SERVICE_ROLE_KEY := Some "service-key" |}.

Definition empty_env : Env :=
  {| SUPABASE_URL := None; SUPABASE_ANON_KEY := None; SUPABASE_SERVICE_ROLE_KEY := None |}.

(** The variables as [wrangler.jsonc] ships them. *)
Definition placeholder_env : Env :=
  {| SUPABASE_URL := Some "YOUR_SUPABASE_URL_HERE";
     SUPABASE_ANON_KEY := Some "YOUR_SUPABASE_ANON_KEY_HERE";
     SUPABASE_SERVICE_ROLE_KEY := Some "YOUR_SUPABASE_SERVICE_ROLE_KEY_HERE_IF_NEEDED" |}.

End Legacy.

(** * Properties *)

(** ** The client factory and the guard of [list_tables] *)

Lemma truthy_false (o : option string) :
  truthy o = false <-> o = None \/ o = Some "".
Proof.
  destruct o as [s|]; simpl.
  - rewrite negb_false_iff, String.eqb_eq. split.
    + intros ->. now right.
    + intros [H|H]; congruence.
  - split; auto.
Qed.

Lemma truthy_true (o : option string) :
  truthy o = true <-> exists s, o = Some s /\ s <> "".
Proof.
  destruct o as [s|]; simpl.
  - rewrite negb_true_iff, String.eqb_neq. split.
    + intros H. now exists s.
    + intros (s' & [= ->] & H). exact H.
  - split; [discriminate | intros (s & H & _); discriminate].
Qed.

Lemma ready_spec (st : MyMCPState) :
  ready st = true <->
  isConfigured st = true /\
  (exists url, supabaseUrl st = Some url /\ url <> "") /\
  (exists key, supabaseAnonKey st = Some key /\ key <> "").
Proof.
  unfold ready. rewrite !andb_true_iff, !truthy_true. tauto.
Qed.

Section HandlerFacts.

Variable rejection : string -> string -> option JsError.
Variable backend : SupabaseClient -> string -> json -> RpcResponse.

Lemma createSupabaseClient_ok (url key : string) (w : World) :
  url <> "" -> key <> "" -> rejection url key = None ->
  createSupabaseClient rejection (Some url) (Some key) w =
    (Ret {| client_url := url; client_key := key |},
     {| state := state w; trace := trace w ++ [CreateClient url key] |}).
Proof.
  intros Hu Hk R. unfold createSupabaseClient.
  apply String.eqb_neq in Hu, Hk. rewrite Hu, Hk. cbn [orb].
  unfold createClient, bind, emit. rewrite R. reflexivity.
Qed.

(** The constructor's own exception leaves [createSupabaseClient] as it
    is, after the call has been made. *)
Lemma createSupabaseClient_rejected (url key : string) (e : JsError) (w : World) :
  url <> "" -> key <> "" -> rejection url key = Some e ->
  createSupabaseClient rejection (Some url) (Some key) w =
    (Throw e, {| state := state w; trace := trace w ++ [CreateClient url key] |}).
Proof.
  intros Hu Hk R. unfold createSupabaseClient.
  apply String.eqb_neq in Hu, Hk. rewrite Hu, Hk. cbn [orb].
  unfold createClient, bind, emit. rewrite R. reflexivity.
Qed.


(** When the guard fails the handler answers at once and leaves the world
    as it found it. *)
Lemma list_tables_not_ready (w : World) :
  ready (state w) = false ->
  list_tables_handler rejection backend tt w = (Ret (Failure not_configured_message), w).
Proof.
  intros H. unfold list_tables_handler, bind, get_state, ready in *.
  destruct (isConfigured (state w)), (truthy (supabaseUrl (state w))),
    (truthy (supabaseAnonKey (state w))); simpl in *;
    try discriminate; reflexivity.
Qed.

(** When the guard holds and the constructor returns, the handler issues
    one remote call through the client it built; its answer is decided by
    what the call settles to. *)
Lemma list_tables_ready (w : World) (url key : string) :
  isConfigured (state w) = true ->
  supabaseUrl (state w) = Some url -> url <> "" ->
  supabaseAnonKey (state w) = Some key -> key <> "" ->
  rejection url key = None ->
  let client := {| client_url := url; client_key := key |} in
  let called :=
    ((trace w ++ [CreateClient url key]) ++ [Rpc client "execute_sql" execute_sql_args])%list in
  list_tables_handler rejection backend tt w =
    match backend client "execute_sql" execute_sql_args with
    | Resolved data (Some error) =>
        (Ret (Failure ("Failed to list tables: " ++ message error)),
         {| state := state w;
            trace := (called ++ [ConsoleError "Error from list_tables RPC:"])%list |})
    | Resolved data None =>
        match ListTablesOutputSchema data with
        | None =>
            (Ret (Failure "Failed to parse list_tables output."),
             {| state := state w;
                trace := (called ++ [ConsoleError "Failed to parse list_tables output:"])%list |})
        | Some parsed =>
            (Ret (Ok (JSON_stringify parsed 2)), {| state := state w; trace := called |})
        end
    | Rejected e =>
        (Ret (Failure ("Exception: " ++ message e)),
         {| state := state w;
            trace := (called ++ [ConsoleError "Exception in list_tables tool:"])%list |})
    end.
Proof.
  intros Hc Hu Hu' Hk Hk' R client called.
  unfold list_tables_handler, bind at 1, get_state.
  rewrite Hc, Hu, Hk. unfold truthy.
  apply String.eqb_neq in Hu' as Eu, Hk' as Ek. rewrite Eu, Ek. cbn [negb orb].
  unfold bind at 1. rewrite createSupabaseClient_ok by assumption.
  unfold try_catch, rpc, bind, emit, console_error, emit, ret, throw.
  subst client called. unfold execute_sql_args. cbn [state trace fst snd].
  destruct (backend _ _ _) as [data [err|]|e]; cbn [state trace fst snd message].
  - reflexivity.
  - destruct (ListTablesOutputSchema data); reflexivity.
  - reflexivity.
Qed.

(** When the guard holds and the constructor raises an exception, the
    exception leaves the handler: the call that builds the client stands
    before the [try] block. *)
Lemma list_tables_rejected (w : World) (url key : string) (e : JsError) :
  isConfigured (state w) = true ->
  supabaseUrl (state w) = Some url -> url <> "" ->
  supabaseAnonKey (state w) = Some key -> key <> "" ->
  rejection url key = Some e ->
  list_tables_handler rejection backend tt w =
    (Throw e, {| state := state w; trace := trace w ++ [CreateClient url key] |}).
Proof.
  intros Hc Hu Hu' Hk Hk' R.
  unfold list_tables_handler, bind at 1, get_state.
  rewrite Hc, Hu, Hk. unfold truthy.
  apply String.eqb_neq in Hu' as Eu, Hk' as Ek. rewrite Eu, Ek. cbn [negb orb].
  unfold bind at 1. now rewrite createSupabaseClient_rejected with (e := e).
Qed.

(** The three ways an invocation of [list_tables] can go. *)
Lemma list_tables_cases (w : World) :
  (ready (state w) = false /\
   list_tables_handler rejection backend tt w = (Ret (Failure not_configured_message), w)) \/
  (exists url key e,
     ready (state w) = true /\
     supabaseUrl (state w) = Some url /\ supabaseAnonKey (state w) = Some key /\
     rejection url key = Some e /\
     list_tables_handler rejection backend tt w =
       (Throw e, {| state := state w; trace := trace w ++ [CreateClient url key] |})) \/
  (exists url key r logs,
     ready (state w) = true /\
     supabaseUrl (state w) = Some url /\ supabaseAnonKey (state w) = Some key /\
     rejection url key = None /\
     Forall (fun e => is_backend_event e = false) logs /\
     List.length logs <= 1 /\
     list_tables_handler rejection backend tt w =
       (Ret r,
        {| state := state w;
           trace := trace w ++
                    [CreateClient url key;
                     Rpc {| client_url := url; client_key := key |} "execute_sql" execute_sql_args]
                    ++ logs |})).
Proof.
  destruct (ready (state w)) eqn:R.
  - right. pose proof R as R'.
    apply ready_spec in R' as (Hc & (url & Hu & Hu') & (key & Hk & Hk')).
    destruct (rejection url key) as [e|] eqn:X.
    + left. exists url, key, e. repeat split; try assumption.
      now apply list_tables_rejected.
    + right. exists url, key.
      rewrite (list_tables_ready w url key Hc Hu Hu' Hk Hk' X).
      set (client := {| client_url := url; client_key := key |}).
      assert (G : forall (r : ToolResult) logs,
                Forall (fun e => is_backend_event e = false) logs ->
                List.length logs <= 1 ->
                exists r0 logs0,
                  true = true /\
                  supabaseUrl (state w) = Some url /\ supabaseAnonKey (state w) = Some key /\
                  rejection url key = None /\
                  Forall (fun e => is_backend_event e = false) logs0 /\
                  List.length logs0 <= 1 /\
                  (Ret r,
                   {| state := state w;
                      trace := ((trace w ++ [CreateClient url key]) ++
                                [Rpc client "execute_sql" execute_sql_args]) ++ logs |}) =
                  (Ret r0,
                   {| state := state w;
                      trace := trace w ++
                               [CreateClient url key; Rpc client "execute_sql" execute_sql_args]
                               ++ logs0 |})).
      { intros r logs F L. exists r, logs.
        split; [reflexivity|]. split; [exact Hu|]. split; [exact Hk|].
        split; [exact X|]. split; [exact F|]. split; [exact L|].
        now rewrite <- !app_assoc. }
      destruct (backend _ _ _) as [data [err|]|e].
      * apply G; [repeat constructor | cbn; lia].
      * destruct (ListTablesOutputSchema data).
        -- rewrite <- (app_nil_r ((trace w ++ _) ++ _)). apply G; [constructor | cbn; lia].
        -- apply G; [repeat constructor | cbn; lia].
      * apply G; [repeat constructor | cbn; lia].
  - left. split; [reflexivity|]. now apply list_tables_not_ready.
Qed.

End HandlerFacts.

(** ** Invocations through the registry *)

Section DispatchFacts.

Variable is_url : string -> bool.
Variable rejection : string -> string -> option JsError.
Variable backend : SupabaseClient -> string -> json -> RpcResponse.

Lemma dispatch_configure (raw : json) (w : World) :
  dispatch is_url rejection backend "configure_supabase_instance" raw w =
    match configShape is_url raw with
    | Some input =>
        (Handled (Ok ("Session configured for Supabase instance: " ++ Config.supabaseUrl input)),
         {| state := {| isConfigured := true;
                        supabaseUrl := Some (Config.supabaseUrl input);
                        supabaseAnonKey := Some (Config.supabaseAnonKey input);
                        supabaseServiceKey := Config.supabaseServiceKey input |};
            trace := trace w |})
    | None => (InvalidInput, w)
    end.
Proof.
  unfold dispatch. cbn [find_tool init String.eqb Ascii.eqb Bool.eqb shape handler].
  destruct (configShape is_url raw); reflexivity.
Qed.

Lemma dispatch_add (raw : json) (w : World) :
  dispatch is_url rejection backend "add" raw w =
    match addToolShape raw with
    | Some input => (Handled (Ok (Number_toString (Add.a input + Add.b input)%float)), w)
    | None => (InvalidInput, w)
    end.
Proof.
  unfold dispatch. cbn [find_tool init String.eqb Ascii.eqb Bool.eqb shape handler].
  destruct (addToolShape raw); reflexivity.
Qed.

Lemma dispatch_list_tables (raw : json) (w : World) :
  dispatch is_url rejection backend "list_tables" raw w =
    match emptyShape raw with
    | Some input =>
        match list_tables_handler rejection backend input w with
        | (Ret r, w') => (Handled r, w')
        | (Throw e, w') => (HandlerThrew e, w')
        end
    | None => (InvalidInput, w)
    end.
Proof.
  unfold dispatch. cbn [find_tool init String.eqb Ascii.eqb Bool.eqb shape handler].
  destruct (emptyShape raw); reflexivity.
Qed.

Lemma dispatch_unknown (name : string) (raw : json) (w : World) :
  name <> "configure_supabase_instance" -> name <> "add" -> name <> "list_tables" ->
  dispatch is_url rejection backend name raw w = (UnknownTool, w).
Proof.
  intros H1 H2 H3. unfold dispatch, init, find_tool.
  apply String.eqb_neq in H1, H2, H3. rewrite H1, H2, H3. reflexivity.
Qed.

(** Every invocation is one of the four cases above. *)
Lemma dispatch_cases (P : string -> Prop) (name : string) :
  P "configure_supabase_instance" -> P "add" -> P "list_tables" ->
  (name <> "configure_supabase_instance" -> name <> "add" -> name <> "list_tables" -> P name) ->
  P name.
Proof.
  intros H1 H2 H3 H4.
  destruct (string_dec name "configure_supabase_instance") as [->|N1]; [exact H1|].
  destruct (string_dec name "add") as [->|N2]; [exact H2|].
  destruct (string_dec name "list_tables") as [->|N3]; [exact H3|].
  now apply H4.
Qed.

(** The handler of [list_tables] never replaces the state. *)
Lemma list_tables_keeps_state (w : World) :
  state (snd (list_tables_handler rejection backend tt w)) = state w.
Proof.
  destruct (list_tables_cases rejection backend w)
    as [(_ & ->) | [(url & key & e & _ & _ & _ & _ & ->)
                   | (url & key & r & logs & _ & _ & _ & _ & _ & _ & ->)]];
    reflexivity.
Qed.

(** Only [configure_supabase_instance] replaces the state. *)
Lemma dispatch_keeps_state (name : string) (raw : json) (w : World) :
  name <> "configure_supabase_instance" ->
  state (snd (dispatch is_url rejection backend name raw w)) = state w.
Proof.
  revert name. intros name. pattern name. apply dispatch_cases.
  - congruence.
  - intros _. rewrite dispatch_add. now destruct (addToolShape raw).
  - intros _. rewrite dispatch_list_tables.
    destruct raw; try reflexivity. cbn [emptyShape].
    pose proof (list_tables_keeps_state w) as H.
    destruct (list_tables_handler rejection backend tt w) as [[r|e] w']; exact H.
  - intros N1 N2 N3 _. now rewrite dispatch_unknown.
Qed.

(** While the guard of [list_tables] fails, no invocation other than
    [configure_supabase_instance] touches the trace. *)
Lemma dispatch_keeps_world (name : string) (raw : json) (w : World) :
  name <> "configure_supabase_instance" ->
  ready (state w) = false ->
  snd (dispatch is_url rejection backend name raw w) = w.
Proof.
  intros N R. revert N. pattern name. apply dispatch_cases.
  - congruence.
  - intros _. rewrite dispatch_add. now destruct (addToolShape raw).
  - intros _. rewrite dispatch_list_tables.
    destruct raw; try reflexivity. cbn [emptyShape].
    now rewrite list_tables_not_ready.
  - intros N1 N2 N3 _. now rewrite dispatch_unknown.
Qed.

End DispatchFacts.

Lemma run_without_configure (is_url : string -> bool)
  (rejection : string -> string -> option JsError) (calls : list Call) (w : World) :
  Forall (fun c => call_name c <> "configure_supabase_instance") calls ->
  ready (state w) = false ->
  run is_url rejection calls w = w.
Proof.
  intros H R. induction H as [|c calls Hc _ IH]; [reflexivity|].
  cbn [run]. now rewrite dispatch_keeps_world.
Qed.

(** ** The session invariant *)

Lemma configShape_url (is_url : string -> bool) (raw : json) (input : Config.input) :
  configShape is_url raw = Some input ->
  is_url (Config.supabaseUrl input) = true.
Proof.
  unfold configShape, z_string_url. destruct raw as [| | | |?|members]; try discriminate.
  destruct (z_string (obj_get "supabaseUrl" members)) as [url|]; [|discriminate].
  destruct (is_url url) eqn:U; [|discriminate].
  destruct (z_string _); [|discriminate]. destruct (z_optional _ _); [|discriminate].
  intros [= <-]. exact U.
Qed.

Lemma dispatch_keeps_invariant (is_url : string -> bool)
  (rejection : string -> string -> option JsError)
  (backend : SupabaseClient -> string -> json -> RpcResponse)
  (name : string) (raw : json) (w : World) :
  credentials_present is_url (state w) ->
  credentials_present is_url (state (snd (dispatch is_url rejection backend name raw w))).
Proof.
  intros I. destruct (string_dec name "configure_supabase_instance") as [->|N].
  - rewrite dispatch_configure. destruct (configShape is_url raw) as [input|] eqn:E; [|exact I].
    intros _. cbn [snd state supabaseUrl supabaseAnonKey]. split.
    + exists (Config.supabaseUrl input). split; [reflexivity|]. now apply configShape_url with raw.
    + now exists (Config.supabaseAnonKey input).
  - now rewrite dispatch_keeps_state.
Qed.

Lemma run_keeps_invariant (is_url : string -> bool)
  (rejection : string -> string -> option JsError) (calls : list Call) (w : World) :
  credentials_present is_url (state w) ->
  credentials_present is_url (state (run is_url rejection calls w)).
Proof.
  revert w. induction calls as [|c calls IH]; intros w I; [exact I|].
  cbn [run]. apply IH. now apply dispatch_keeps_invariant.
Qed.

(** C1, as the specification states it, fails: the schema of
    [supabaseAnonKey] is [z.string()], which accepts the empty string, so
    one valid [configure_supabase_instance] call reaches a state with
    [isConfigured == true] and an empty anon key. *)
Lemma credentials_nonempty_fails :
  http_url "" = false /\
  state (run http_url rejects_malformed [configure_with_empty_key] fresh) =
    {| isConfigured := true;
       supabaseUrl := Some "https://project.supabase.co";
       supabaseAnonKey := Some "";
       supabaseServiceKey := None |} /\
  ~ credentials_nonempty (state (run http_url rejects_malformed [configure_with_empty_key] fresh)).
Proof.
  split; [reflexivity|]. split; [reflexivity|].
  intros H. destruct (H eq_refl) as [_ K]. discriminate K.
Qed.

(** C1 (amended): in every state reached from the initial state by any
    sequence of tool invocations, [isConfigured == true] implies that
    [supabaseUrl] is a string accepted by the URL schema, hence non-empty,
    and that [supabaseAnonKey] is a string (possibly the empty one); the
    [configure_supabase_instance] handler establishes this from any state
    whenever its input passes the schema. *)
Theorem credentials_present_invariant (is_url : string -> bool)
  (rejection : string -> string -> option JsError) :
  is_url "" = false ->
  (forall calls : list Call,
     let st := state (run is_url rejection calls fresh) in
     credentials_present is_url st /\
     (isConfigured st = true ->
      truthy (supabaseUrl st) = true /\ exists key, supabaseAnonKey st = Some key)) /\
  (forall (raw : json) (input : Config.input) (w : World),
     configShape is_url raw = Some input ->
     let st := state (snd (configure_supabase_instance_handler input w)) in
     isConfigured st = true /\ credentials_present is_url st /\
     truthy (supabaseUrl st) = true).
Proof.
  intros E.
  assert (T : forall st, credentials_present is_url st -> isConfigured st = true ->
              truthy (supabaseUrl st) = true /\ exists key, supabaseAnonKey st = Some key).
  { intros st I C. destruct (I C) as [(url & Hu & U) K]. split; [|exact K].
    apply truthy_true. exists url. split; [exact Hu|]. intros ->. congruence. }
  split.
  - intros calls st.
    assert (I : credentials_present is_url st).
    { apply run_keeps_invariant. intros C. discriminate C. }
    split; [exact I|]. now apply T.
  - intros raw input w V st.
    assert (I : credentials_present is_url st).
    { intros _. split.
      - exists (Config.supabaseUrl input). split; [reflexivity|]. now apply configShape_url with raw.
      - now exists (Config.supabaseAnonKey input). }
    split; [reflexivity|]. split; [exact I|]. now apply T.
Qed.

Lemma credentials_present_invariant_witness :
  http_url "" = false /\
  let st := state (run http_url rejects_malformed [configure_with_empty_key] fresh) in
  isConfigured st = true /\
  truthy (supabaseUrl st) = true /\ exists key, supabaseAnonKey st = Some key.
Proof.
  split; [reflexivity|].
  intros st. split; [reflexivity|].
  exact (proj2 (proj1 (credentials_present_invariant http_url rejects_malformed eq_refl)
                  [configure_with_empty_key]) eq_refl).
Defined.

(** ** [list_tables] before configuration *)

(** C2: in a session where [configure_supabase_instance] has not been
    called, the state is still the initial one, [list_tables] returns the
    "not configured" failure and leaves the world untouched: no client is
    built and no remote call is made, then or before. *)
Theorem list_tables_before_configure (is_url : string -> bool)
  (rejection : string -> string -> option JsError)
  (backend : SupabaseClient -> string -> json -> RpcResponse)
  (calls : list Call) (raw : list (string * json)) :
  Forall (fun c => call_name c <> "configure_supabase_instance") calls ->
  let w := run is_url rejection calls fresh in
  state w = initialState /\
  backend_calls w = 0 /\
  list_tables_handler rejection backend tt w = (Ret (Failure not_configured_message), w) /\
  dispatch is_url rejection backend "list_tables" (JObj raw) w =
    (Handled (Failure not_configured_message), w) /\
  is_failure (Failure not_configured_message) = true.
Proof.
  intros H w. subst w. rewrite run_without_configure by (exact H || reflexivity).
  repeat split.
Qed.

Lemma list_tables_before_configure_witness :
  let w := run http_url rejects_malformed
             [ {| call_backend := empty_database; call_name := "add";
                  call_input := JObj [("a", JNum 2); ("b", JNum 3)] |};
               {| call_backend := empty_database; call_name := "list_tables";
                  call_input := JObj [] |} ] fresh in
  backend_calls w = 0 /\
  list_tables_handler rejects_malformed empty_database tt w = (Ret (Failure not_configured_message), w).
Proof.
  intros w.
  assert (H : Forall (fun c => call_name c <> "configure_supabase_instance")
                [ {| call_backend := empty_database; call_name := "add";
                     call_input := JObj [("a", JNum 2); ("b", JNum 3)] |};
                  {| call_backend := empty_database; call_name := "list_tables";
                     call_input := JObj [] |} ]).
  { repeat constructor; simpl; discriminate. }
  destruct (list_tables_before_configure http_url rejects_malformed empty_database _ [] H) as (_ & B & L & _).
  split; [exact B | exact L].
Defined.

(** ** The exceptions of the client factory *)



(** ** Outcomes of [list_tables] in a configured session *)

Lemma table_entry_accepts (v : json) :
  (exists out, table_entry (Some v) = Some out) <-> entry_shape v.
Proof.
  split.
  - intros (out & H). unfold table_entry in H.
    destruct v as [| | | | |members]; try discriminate H.
    exists members. split; [reflexivity|].
    destruct (obj_get "schema" members) as [[| | |s| |]|]; try discriminate H.
    destruct (obj_get "name" members) as [[| | |n| |]|]; try discriminate H.
    split; [now exists s|]. split; [now exists n|].
    destruct (obj_get "comment" members) as [[| | |c| |]|]; try discriminate H; eauto.
  - intros (members & -> & (s & Hs) & (n & Hn) & Hc). unfold table_entry.
    rewrite Hs, Hn. destruct Hc as [-> | [-> | (c & ->)]]; cbn; eauto.
Qed.

Lemma ListTablesOutputSchema_accepts (data : json) :
  (exists out, ListTablesOutputSchema data = Some out) <-> listing_shape data.
Proof.
  unfold ListTablesOutputSchema, z_array, listing_shape. split.
  - intros (out & H). destruct data as [| | | |items|]; try discriminate H.
    exists items. split; [reflexivity|].
    revert out H. induction items as [|v items IH]; intros out H; constructor.
    + apply table_entry_accepts. cbn [fold_right] in H.
      destruct (table_entry (Some v)) as [o|]; [eauto | discriminate H].
    + cbn [fold_right] in H. destruct (table_entry (Some v)); [|discriminate H].
      destruct (fold_right _ _ items) as [l|]; [|discriminate H].
      now apply (IH (JArr l)).
  - intros (items & -> & F). induction F as [|v items Hv _ (out & IH)]; [now eexists|].
    apply table_entry_accepts in Hv as (o & Hv). cbn [fold_right]. rewrite Hv.
    destruct (fold_right _ _ items) as [l|]; [now eexists | discriminate IH].
Qed.

(** C5, as the specification states it, fails: a record that leaves
    [comment] out is not of the shape
    [{schema: string, name: string, comment: string|null}], yet the schema
    accepts it ([comment] is optional) and the handler answers with a
    success that carries the record. *)
Lemma parse_failure_claim_fails :
  let data := JArr [JObj [("schema", JStr "public"); ("name", JStr "orders")]] in
  let w := run http_url rejects_malformed [configure_project] fresh in
  (~ exists rows, encodes data rows) /\
  exists payload,
    list_tables_handler rejects_malformed (fun _ _ _ => Resolved data None) tt w =
      (Ret (Ok payload),
       {| state := state w;
          trace := request {| client_url := "https://project.supabase.co";
                              client_key := "anon-key" |} |}) /\
    is_failure (Ok payload) = false /\
    JSON_parse payload = Some data.
Proof.
  intros data w. split.
  - intros (rows & items & E & F). injection E as <-.
    inversion F as [|v r vs rs Hv F' E1 E2]. destruct Hv as (members & Em & P).
    injection Em as <-. apply Permutation_length in P. discriminate P.
  - eexists. split; [reflexivity|]. split; reflexivity.
Qed.

(** C5 (amended): in a session that passes the guard and whose client the
    constructor could build, when the remote call reports no error and
    [ListTablesOutputSchema] rejects its data (the data is not an array of
    objects with a string [schema], a string [name] and a [comment] that
    is a string, [null] or left out, other members being ignored), the
    handler returns the fixed failure "Failed to parse list_tables
    output.", whatever the data was: nothing of the data is in the
    result. *)
Theorem list_tables_parse_failure
  (rejection : string -> string -> option JsError)
  (backend : SupabaseClient -> string -> json -> RpcResponse)
  (w : World) (url key : string) (data : json) :
  isConfigured (state w) = true ->
  supabaseUrl (state w) = Some url -> url <> "" ->
  supabaseAnonKey (state w) = Some key -> key <> "" ->
  rejection url key = None ->
  backend {| client_url := url; client_key := key |} "execute_sql" execute_sql_args
    = Resolved data None ->
  ~ listing_shape data ->
  fst (list_tables_handler rejection backend tt w) = Ret (Failure "Failed to parse list_tables output.") /\
  is_failure (Failure "Failed to parse list_tables output.") = true /\
  "Failed to parse list_tables output." = "Failed to " ++ "parse" ++ " list_tables output.".
Proof.
  intros Hc Hu Hu' Hk Hk' X B P.
  rewrite (list_tables_ready rejection backend w url key Hc Hu Hu' Hk Hk' X), B.
  destruct (ListTablesOutputSchema data) as [out|] eqn:E.
  - destruct P. apply ListTablesOutputSchema_accepts. now exists out.
  - repeat split.
Qed.

Lemma list_tables_parse_failure_witness :
  fst (list_tables_handler rejects_malformed
         (fun _ _ _ => Resolved (JArr [JObj [("schema", JStr "public"); ("name", JNum 42)]]) None)
         tt (run http_url rejects_malformed [configure_project] fresh))
  = Ret (Failure "Failed to parse list_tables output.").
Proof.
  refine (proj1 (list_tables_parse_failure rejects_malformed _
                   (run http_url rejects_malformed [configure_project] fresh)
                   "https://project.supabase.co" "anon-key"
                   (JArr [JObj [("schema", JStr "public"); ("name", JNum 42)]])
                   eq_refl eq_refl _ eq_refl _ eq_refl eq_refl _)); try discriminate.
  intros (items & [= <-] & F).
  apply Forall_inv in F. destruct F as (members & [= <-] & _ & (n & N) & _).
  discriminate N.
Defined.

(** C8: in a session that passes the guard, when the remote call reports
    an error the handler returns a failure whose message is "Failed to
    list tables: " followed by the error's message, unchanged. *)
Theorem list_tables_backend_error
  (rejection : string -> string -> option JsError)
  (backend : SupabaseClient -> string -> json -> RpcResponse)
  (w : World) (url key : string) (data : json) (error : JsError) :
  isConfigured (state w) = true ->
  supabaseUrl (state w) = Some url -> url <> "" ->
  supabaseAnonKey (state w) = Some key -> key <> "" ->
  rejection url key = None ->
  backend {| client_url := url; client_key := key |} "execute_sql" execute_sql_args
    = Resolved data (Some error) ->
  fst (list_tables_handler rejection backend tt w) =
    Ret (Failure ("Failed to list tables: " ++ message error)) /\
  is_failure (Failure ("Failed to list tables: " ++ message error)) = true /\
  forall payload, fst (list_tables_handler rejection backend tt w) <> Ret (Ok payload).
Proof.
  intros Hc Hu Hu' Hk Hk' X B.
  rewrite (list_tables_ready rejection backend w url key Hc Hu Hu' Hk Hk' X), B.
  repeat split. intros payload. cbn [fst]. discriminate.
Qed.

Lemma list_tables_backend_error_witness :
  fst (list_tables_handler rejects_malformed
         (fun _ _ _ => Resolved JNull (Some {| message := "permission denied for function execute_sql" |}))
         tt (run http_url rejects_malformed [configure_project] fresh))
  = Ret (Failure "Failed to list tables: permission denied for function execute_sql").
Proof.
  refine (proj1 (list_tables_backend_error rejects_malformed _
                   (run http_url rejects_malformed [configure_project] fresh)
                   "https://project.supabase.co" "anon-key" JNull
                   {| message := "permission denied for function execute_sql" |}
                   eq_refl eq_refl _ eq_refl _ eq_refl eq_refl)); discriminate.
Defined.

(** C10: with [isConfigured == true] and an empty (or absent) URL or anon
    key, [list_tables] returns the same "not configured" failure as an
    unconfigured session and leaves the world untouched: no client is
    built and no remote call is made. *)
Theorem list_tables_empty_credentials
  (rejection : string -> string -> option JsError)
  (backend : SupabaseClient -> string -> json -> RpcResponse) (w : World) :
  isConfigured (state w) = true ->
  truthy (supabaseUrl (state w)) = false \/ truthy (supabaseAnonKey (state w)) = false ->
  list_tables_handler rejection backend tt w = (Ret (Failure not_configured_message), w) /\
  backend_calls (snd (list_tables_handler rejection backend tt w)) = backend_calls w /\
  fst (list_tables_handler rejection backend tt w) = fst (list_tables_handler rejection backend tt fresh).
Proof.
  intros Hc H.
  assert (R : ready (state w) = false).
  { unfold ready. rewrite Hc. destruct H as [-> | ->]; [reflexivity | apply andb_false_r]. }
  rewrite list_tables_not_ready by exact R. repeat split.
Qed.

Lemma list_tables_empty_credentials_witness :
  let w := run http_url rejects_malformed [configure_with_empty_key] fresh in
  isConfigured (state w) = true /\
  list_tables_handler rejects_malformed empty_database tt w = (Ret (Failure not_configured_message), w).
Proof.
  intros w. split; [reflexivity|].
  exact (proj1 (list_tables_empty_credentials rejects_malformed empty_database w eq_refl (or_intror eq_refl))).
Defined.

(** ** [configure_supabase_instance] *)

(** C6: after the handler runs on a validated input the state is exactly
    [{isConfigured: true, supabaseUrl, supabaseAnonKey, supabaseServiceKey}]
    taken from that input, whatever the state was before; so of two calls
    in a row only the second shows in the state, and a service key left
    out of the second call is absent afterwards. *)
Theorem configure_replaces_state :
  (forall (input : Config.input) (w : World),
     configure_supabase_instance_handler input w =
       (Ret (Ok ("Session configured for Supabase instance: " ++ Config.supabaseUrl input)),
        {| state := {| isConfigured := true;
                       supabaseUrl := Some (Config.supabaseUrl input);
                       supabaseAnonKey := Some (Config.supabaseAnonKey input);
                       supabaseServiceKey := Config.supabaseServiceKey input |};
           trace := trace w |})) /\
  (forall (first second : Config.input) (w : World),
     let w1 := snd (configure_supabase_instance_handler first w) in
     let w2 := snd (configure_supabase_instance_handler second w1) in
     state w2 = state (snd (configure_supabase_instance_handler second w)) /\
     (Config.supabaseServiceKey second = None -> supabaseServiceKey (state w2) = None)) /\
  (forall (is_url : string -> bool) (rejection : string -> string -> option JsError)
          (backend1 backend2 : SupabaseClient -> string -> json -> RpcResponse)
          (raw1 raw2 : json) (second : Config.input) (w : World),
     configShape is_url raw2 = Some second ->
     let w1 := snd (dispatch is_url rejection backend1 "configure_supabase_instance" raw1 w) in
     let w2 := snd (dispatch is_url rejection backend2 "configure_supabase_instance" raw2 w1) in
     state w2 = {| isConfigured := true;
                   supabaseUrl := Some (Config.supabaseUrl second);
                   supabaseAnonKey := Some (Config.supabaseAnonKey second);
                   supabaseServiceKey := Config.supabaseServiceKey second |}).
Proof.
  split; [|split].
  - reflexivity.
  - intros first second w w1 w2. split; [reflexivity|]. intros H. exact H.
  - intros is_url rejection backend1 backend2 raw1 raw2 second w V w1 w2. subst w2.
    rewrite dispatch_configure, V. reflexivity.
Qed.

Lemma configure_replaces_state_witness :
  state (run http_url rejects_malformed [configure_project; configure_with_empty_key] fresh) =
    {| isConfigured := true;
       supabaseUrl := Some "https://project.supabase.co";
       supabaseAnonKey := Some "";
       supabaseServiceKey := None |}.
Proof.
  exact (proj2 (proj2 configure_replaces_state) http_url rejects_malformed
           empty_database empty_database
           (call_input configure_project) (call_input configure_with_empty_key)
           {| Config.supabaseUrl := "https://project.supabase.co";
              Config.supabaseAnonKey := "";
              Config.supabaseServiceKey := None |}
           fresh eq_refl).
Defined.



(** ** [String] of a number

    The text [Number_toString] gives for a finite double is a decimal
    numeral of a number within half a unit in the last place of the
    double; comparisons are made on rationals. *)



















(** *** The digits [shortest] returns *)




(** *** Doubles *)









(** *** The decimal exponent *)




(** *** Candidates *)






(** *** Reading numerals *)

(** [JSON.parse] rounds what [read_decimal] reads. *)
Lemma parse_number_read_decimal (s : string) (neg : bool) (m p : Z) :
  read_decimal s = Some (neg, m, p) ->
  parse_number s = Some (float_of_decimal neg m p, "").
Proof.
  unfold read_decimal, parse_number, read_unsigned.
  destruct (match s with String "-" r => (true, r) | _ => (false, s) end) as [neg' s1].
  destruct s1 as [|c r]; [discriminate|].
  destruct (is_digit c); [|discriminate].
  destruct (if Ascii.eqb c "0" then _ else _) as [[i j] s2].
  destruct (parse_fraction i s2) as [[[m' count] s3]|]; [|discriminate].
  destruct (parse_exponent s3) as [[e [|c' r']]|]; try discriminate.
  now intros [= -> -> <-].
Qed.





Lemma length_append (s1 s2 : string) :
  String.length (s1 ++ s2) = String.length s1 + String.length s2.
Proof.
  induction s1 as [|c s1 IH]; [reflexivity|]. cbn. now rewrite IH.
Qed.



(** *** Runs of zeros *)



(** *** Decimal numerals of integers *)






(** *** Substrings *)















Example reads_tenths :
  read_decimal (Number_toString (1 / 10 + 2 / 10)%float) = Some (false, 30000000000000004, -17)%Z.
Proof. vm_compute. reflexivity. Qed.

Example reads_large :
  read_decimal (Number_toString (-1e21)%float) = Some (true, 1, 21)%Z.
Proof. vm_compute. reflexivity. Qed.

Example reads_small :
  read_decimal (Number_toString (1 / 10000000)%float) = Some (false, 1, -7)%Z.
Proof. vm_compute. reflexivity. Qed.

Example reads_integer :
  read_decimal (Number_toString (1200)%float) = Some (false, 1200, 0)%Z.
Proof. vm_compute. reflexivity. Qed.

(** ** [add] *)

(** [String] of a few sums, as JavaScript prints them. *)
Example sum_of_small_integers : Number_toString (2 + 3)%float = "5".
Proof. vm_compute. reflexivity. Qed.

Example sum_of_tenths : Number_toString (1 / 10 + 2 / 10)%float = "0.30000000000000004".
Proof. vm_compute. reflexivity. Qed.

Example sum_beyond_21_digits : Number_toString (1e21 + 0)%float = "1e+21".
Proof. vm_compute. reflexivity. Qed.

Example sum_of_negatives : Number_toString (-7 + 2.5)%float = "-4.5".
Proof. vm_compute. reflexivity. Qed.



(** ** [JSON.parse] after [JSON.stringify] *)

Lemma json_induction (P : json -> Prop) :
  P JNull ->
  (forall b, P (JBool b)) ->
  (forall x, P (JNum x)) ->
  (forall s, P (JStr s)) ->
  (forall items, Forall P items -> P (JArr items)) ->
  (forall members, Forall (fun kv => P (snd kv)) members -> P (JObj members)) ->
  forall v, P v.
Proof.
  intros Hnull Hbool Hnum Hstr Harr Hobj.
  fix IH 1. intros [| b | x | s | items | members].
  - exact Hnull.
  - apply Hbool.
  - apply Hnum.
  - apply Hstr.
  - apply Harr. induction items as [|x items IHitems]; constructor; [apply IH | exact IHitems].
  - apply Hobj. induction members as [|kv members IHmembers]; constructor;
      [apply IH | exact IHmembers].
Qed.

Lemma append_cons (c : ascii) (s r : string) : String c s ++ r = String c (s ++ r).
Proof. reflexivity. Qed.

Lemma blank_append (s1 s2 : string) :
  blank s1 = true -> blank s2 = true -> blank (s1 ++ s2) = true.
Proof.
  intros H1 H2. induction s1 as [|c s1 IH]; [exact H2|].
  cbn in *. apply andb_true_iff in H1 as [Hc H1]. now rewrite Hc, IH.
Qed.

Lemma skip_ws_blank (s r : string) :
  blank s = true -> skip_ws (s ++ r) = skip_ws r.
Proof.
  intros H. induction s as [|c s IH]; [reflexivity|].
  cbn in *. apply andb_true_iff in H as [Hc H]. rewrite Hc. now apply IH.
Qed.

(** *** Strings *)

Lemma parse_string_body_quote (s k : string) :
  parse_string_body (quote_body s (String dquote k)) = Some (s, k).
Proof.
  induction s as [|c s IH]; [reflexivity|].
  cbn [quote_body].
  destruct c as [[] [] [] [] [] [] [] []]; cbn; rewrite IH; reflexivity.
Qed.

(** *** Leading white space *)

Lemma skip_ws_idempotent (s : string) : skip_ws (skip_ws s) = skip_ws s.
Proof.
  induction s as [|c s IH]; [reflexivity|].
  cbn [skip_ws]. destruct (is_ws c) eqn:E; [exact IH|]. cbn [skip_ws]. now rewrite E.
Qed.

Lemma parse_value_skip_ws (f : nat) (s : string) :
  parse_value f (skip_ws s) = parse_value f s.
Proof.
  destruct f as [|f]; [reflexivity|]. cbn [parse_value]. now rewrite skip_ws_idempotent.
Qed.

Lemma parse_value_blank (f : nat) (s r : string) :
  blank s = true -> parse_value f (s ++ r) = parse_value f r.
Proof.
  intros H. now rewrite <- parse_value_skip_ws, skip_ws_blank, parse_value_skip_ws.
Qed.

Lemma parse_elements_unfold (f : nat) (s : string) :
  parse_elements (S f) s =
    match parse_value f s with
    | Some (v, r) =>
        match skip_ws r with
        | String "," r' =>
            match parse_elements f r' with
            | Some (vs, r'') => Some (v :: vs, r'')
            | None => None
            end
        | String "]" r' => Some ([v], r')
        | _ => None
        end
    | None => None
    end.
Proof. reflexivity. Qed.

Lemma parse_elements_blank (f : nat) (s r : string) :
  blank s = true -> parse_elements f (s ++ r) = parse_elements f r.
Proof.
  intros H. destruct f as [|f]; [reflexivity|].
  now rewrite !parse_elements_unfold, parse_value_blank.
Qed.

Lemma parse_members_unfold (f : nat) (s : string) :
  parse_members (S f) s =
    match skip_ws s with
    | String c r =>
        if Ascii.eqb c dquote then
          match parse_string_body r with
          | Some (key, r1) =>
              match skip_ws r1 with
              | String ":" r2 =>
                  match parse_value f r2 with
                  | Some (v, r3) =>
                      match skip_ws r3 with
                      | String "," r4 =>
                          match parse_members f r4 with
                          | Some (ms, r5) => Some ((key, v) :: ms, r5)
                          | None => None
                          end
                      | String "}" r4 => Some ([(key, v)], r4)
                      | _ => None
                      end
                  | None => None
                  end
              | _ => None
              end
          | None => None
          end
        else None
    | EmptyString => None
    end.
Proof. reflexivity. Qed.

Lemma parse_members_blank (f : nat) (s r : string) :
  blank s = true -> parse_members f (s ++ r) = parse_members f r.
Proof.
  intros H. destruct f as [|f]; [reflexivity|].
  now rewrite !parse_members_unfold, skip_ws_blank.
Qed.

(** *** The first character of a value *)

Lemma skip_ws_head (c : ascii) (r : string) :
  is_ws c = false -> skip_ws (String c r) = String c r.
Proof. intros H. cbn [skip_ws]. now rewrite H. Qed.

Lemma serialized_head (gap indent : string) (v : json) (k : string) :
  textual v = true ->
  exists c r,
    SerializeJSONProperty gap indent v k = String c r /\
    is_ws c = false /\ c <> "]"%char /\ c <> "}"%char.
Proof.
  intros T. destruct v as [| [|] | x | s | [|x xs] | [|[key x] ms]]; try discriminate T;
    cbn [SerializeJSONProperty QuoteJSONString append];
    eexists; eexists; (split; [reflexivity|]); repeat split; discriminate.
Qed.

Lemma parse_value_array (f : nat) (r : string) :
  (forall r', skip_ws r <> String "]" r') ->
  parse_value (S f) (String "[" r) =
    match parse_elements f r with
    | Some (items, r') => Some (JArr items, r')
    | None => None
    end.
Proof.
  intros H. cbn [parse_value skip_ws is_ws Ascii.eqb Bool.eqb orb].
  destruct (skip_ws r) as [|c r'] eqn:E; [reflexivity|].
  destruct c as [[] [] [] [] [] [] [] []]; try reflexivity.
  now destruct (H r').
Qed.

Lemma parse_value_object (f : nat) (r : string) :
  (forall r', skip_ws r <> String "}" r') ->
  parse_value (S f) (String "{" r) =
    match parse_members f r with
    | Some (pairs, r') => Some (JObj (obj_of_pairs pairs), r')
    | None => None
    end.
Proof.
  intros H. cbn [parse_value skip_ws is_ws Ascii.eqb Bool.eqb orb].
  destruct (skip_ws r) as [|c r'] eqn:E; [reflexivity|].
  destruct c as [[] [] [] [] [] [] [] []]; try reflexivity.
  now destruct (H r').
Qed.

(** *** Arrays and objects *)

Section ReadBack.

Variables indent lead closing k : string.
Hypothesis blank_indent : blank indent = true.
Hypothesis blank_lead : blank lead = true.
Hypothesis blank_closing : blank closing = true.

Let ser := SerializeJSONProperty "  " indent.
Let separator := String "," lead.

Lemma parse_elements_serialized (xs : list json) :
  Forall reads_back xs ->
  forall (x : json) (f : nat),
    reads_back x ->
    list_sum (map (fun y => S (weight y)) (x :: xs)) <= f ->
    parse_elements f (ser x (ser_elements ser separator closing k xs)) = Some (x :: xs, k).
Proof.
  induction 1 as [|y ys Hy _ IH]; intros x f Hx Hf;
    (destruct f as [|f]; [cbn in Hf; lia|]);
    rewrite parse_elements_unfold; unfold ser at 1;
    (rewrite Hx by (assumption || (cbn in Hf; lia))); cbn [ser_elements].
  - rewrite skip_ws_blank by exact blank_closing. reflexivity.
  - unfold separator at 1. rewrite append_cons.
    cbn [skip_ws is_ws Ascii.eqb Bool.eqb orb].
    rewrite parse_elements_blank by exact blank_lead.
    rewrite IH; [reflexivity | exact Hy |]. cbn [map list_sum fold_right] in *. lia.
Qed.

Lemma parse_members_serialized (ms : list (string * json)) :
  Forall (fun kv => reads_back (snd kv)) ms ->
  forall (key : string) (x : json) (f : nat),
    reads_back x ->
    list_sum (map (fun kv => S (weight (snd kv))) ((key, x) :: ms)) <= f ->
    parse_members f
      (QuoteJSONString key (": " ++ ser x (ser_members ser separator ": " closing k ms)))
    = Some ((key, x) :: ms, k).
Proof.
  induction 1 as [|[key' y] ms Hy _ IH]; intros key x f Hx Hf;
    (destruct f as [|f]; [cbn in Hf; lia|]);
    rewrite parse_members_unfold; unfold QuoteJSONString at 1;
    cbn [skip_ws is_ws Ascii.eqb Bool.eqb orb dquote];
    rewrite parse_string_body_quote, (append_cons ":" " ");
    cbn [skip_ws is_ws Ascii.eqb Bool.eqb orb];
    rewrite (parse_value_blank f " ") by reflexivity; unfold ser at 1;
    (rewrite Hx by (assumption || (cbn in Hf; lia))); cbn [ser_members].
  - rewrite skip_ws_blank by exact blank_closing. reflexivity.
  - unfold separator at 1. rewrite append_cons.
    cbn [skip_ws is_ws Ascii.eqb Bool.eqb orb].
    rewrite parse_members_blank by exact blank_lead.
    cbn [snd] in Hy.
    rewrite IH; [reflexivity | exact Hy |]. cbn [map list_sum fold_right snd] in *. lia.
Qed.

End ReadBack.

Lemma obj_set_fresh (key : string) (v : json) (members : list (string * json)) :
  existsb (String.eqb key) (map fst members) = false ->
  obj_set key v members = (members ++ [(key, v)])%list.
Proof.
  induction members as [|[key' v'] members IH]; [reflexivity|].
  cbn [map fst existsb obj_set app]. intros H. apply orb_false_iff in H as [E H].
  rewrite E. f_equal. now apply IH.
Qed.

Lemma distinct_app_cons (l : list string) (key : string) (rest : list string) :
  distinct (l ++ key :: rest) = true ->
  existsb (String.eqb key) l = false /\ distinct ((l ++ [key]) ++ rest) = true.
Proof.
  induction l as [|a l IH]; cbn [app distinct].
  - intros H. split; [reflexivity | exact H].
  - intros H. apply andb_true_iff in H as [Ha H]. destruct (IH H) as [E D].
    rewrite existsb_app in Ha. cbn [existsb] in Ha.
    rewrite negb_true_iff, !orb_false_iff in Ha. destruct Ha as (Ha1 & Ha2 & Ha3).
    split.
    + cbn [existsb]. rewrite E, String.eqb_sym, Ha2. reflexivity.
    + rewrite D, andb_true_r, negb_true_iff, !existsb_app. cbn [existsb].
      now rewrite Ha1, Ha2, Ha3.
Qed.

Lemma obj_of_pairs_distinct (members : list (string * json)) :
  distinct (map fst members) = true -> obj_of_pairs members = members.
Proof.
  unfold obj_of_pairs.
  enough (G : forall acc, distinct (map fst (acc ++ members)) = true ->
                fold_left (fun ms kv => obj_set (fst kv) (snd kv) ms) members acc
                = (acc ++ members)%list) by (apply (G [])).
  induction members as [|[key v] members IH]; intros acc D.
  - cbn [fold_left]. now rewrite app_nil_r.
  - cbn [fold_left fst snd]. rewrite map_app in D. cbn [map fst] in D.
    apply distinct_app_cons in D as [E D].
    rewrite obj_set_fresh by exact E.
    rewrite IH; [now rewrite <- app_assoc|].
    now rewrite !map_app.
Qed.

(** *** The round trip *)

Lemma textual_reads_back (v : json) : textual v = true -> reads_back v.
Proof.
  induction v as [| b | x | s | items IH | members IH] using json_induction;
    intros T indent k f B F.
  - destruct f as [|f]; [cbn in F; lia | reflexivity].
  - destruct f as [|f]; [cbn in F; lia | now destruct b].
  - discriminate T.
  - destruct f as [|f]; [cbn in F; lia|].
    cbn [SerializeJSONProperty QuoteJSONString parse_value skip_ws is_ws
         Ascii.eqb Bool.eqb orb dquote].
    now rewrite parse_string_body_quote.
  - destruct items as [|x xs]; [destruct f as [|f]; [cbn in F; lia | reflexivity]|].
    cbn [textual forallb] in T. apply andb_true_iff in T as [Tx Txs].
    apply Forall_cons_iff in IH as [IHx IHxs].
    assert (Rxs : Forall reads_back xs).
    { rewrite forallb_forall in Txs. rewrite Forall_forall in IHxs |- *. auto. }
    destruct f as [|f]; [cbn in F; lia|].
    change (SerializeJSONProperty "  " indent (JArr (x :: xs)) k)
      with (String "[" (nl ++ (indent ++ "  ") ++
              SerializeJSONProperty "  " (indent ++ "  ") x
                (ser_elements (SerializeJSONProperty "  " (indent ++ "  "))
                   (String "," (nl ++ indent ++ "  ")) (nl ++ indent) k xs))).
    assert (Bi : blank (indent ++ "  ") = true) by now apply blank_append.
    rewrite parse_value_array.
    + rewrite !parse_elements_blank by (reflexivity || exact Bi).
      rewrite parse_elements_serialized;
        solve [ reflexivity | assumption | now apply (blank_append nl) | now apply IHx
              | cbn [weight] in F; lia ].
    + intros r'. rewrite !skip_ws_blank by (reflexivity || exact Bi).
      destruct (serialized_head "  " (indent ++ "  ") x
                  (ser_elements (SerializeJSONProperty "  " (indent ++ "  "))
                     (String "," (nl ++ indent ++ "  ")) (nl ++ indent) k xs) Tx)
        as (c & r & -> & W & N & _).
      rewrite skip_ws_head by exact W. congruence.
  - destruct members as [|[key x] ms]; [destruct f as [|f]; [cbn in F; lia | reflexivity]|].
    cbn [textual] in T. apply andb_true_iff in T as [D T].
    cbn [forallb snd] in T. apply andb_true_iff in T as [Tx Tms].
    apply Forall_cons_iff in IH as [IHx IHms]. cbn [snd] in IHx.
    assert (Rms : Forall (fun kv => reads_back (snd kv)) ms).
    { rewrite forallb_forall in Tms. rewrite Forall_forall in IHms |- *. auto. }
    destruct f as [|f]; [cbn in F; lia|].
    change (SerializeJSONProperty "  " indent (JObj ((key, x) :: ms)) k)
      with (String "{" (nl ++ (indent ++ "  ") ++
              QuoteJSONString key (": " ++
                SerializeJSONProperty "  " (indent ++ "  ") x
                  (ser_members (SerializeJSONProperty "  " (indent ++ "  "))
                     (String "," (nl ++ indent ++ "  ")) ": " (nl ++ indent) k ms)))).
    assert (Bi : blank (indent ++ "  ") = true) by now apply blank_append.
    rewrite parse_value_object.
    + rewrite !parse_members_blank by (reflexivity || exact Bi).
      rewrite parse_members_serialized;
        solve [ now rewrite obj_of_pairs_distinct | assumption
              | now apply (blank_append nl) | now apply IHx
              | cbn [weight] in F; lia ].
    + intros r'. rewrite !skip_ws_blank by (reflexivity || exact Bi).
      unfold QuoteJSONString. rewrite skip_ws_head by reflexivity. discriminate.
Qed.

(** *** The text is longer than the fuel it needs *)

Lemma length_quote_char (c : ascii) (k : string) :
  String.length k < String.length (quote_char c k).
Proof.
  unfold quote_char.
  repeat match goal with |- context [if ?b then _ else _] => destruct b end;
    cbn [String.length]; lia.
Qed.

Lemma length_quote_body (s k : string) :
  String.length k <= String.length (quote_body s k).
Proof.
  induction s as [|c s IH]; cbn [quote_body]; [lia|].
  pose proof (length_quote_char c (quote_body s k)). lia.
Qed.

Lemma length_QuoteJSONString (s k : string) :
  String.length k < String.length (QuoteJSONString s k).
Proof.
  unfold QuoteJSONString. cbn [String.length].
  pose proof (length_quote_body s (String dquote k)) as H. cbn [String.length] in H. lia.
Qed.

Lemma length_ser_elements (ser : json -> string -> string)
  (separator closing k : string) (xs : list json) :
  Forall (fun x => forall k', weight x + String.length k' <= String.length (ser x k')) xs ->
  0 < String.length separator ->
  list_sum (map (fun x => S (weight x)) xs) + String.length k
    <= String.length (ser_elements ser separator closing k xs).
Proof.
  intros H Hs. induction H as [|x xs Hx _ IH];
    unfold list_sum in *; cbn [ser_elements map fold_right].
  - rewrite !length_append. lia.
  - rewrite length_append. specialize (Hx (ser_elements ser separator closing k xs)). lia.
Qed.

Lemma length_ser_members (ser : json -> string -> string)
  (separator colon closing k : string) (ms : list (string * json)) :
  Forall (fun kv => forall k', weight (snd kv) + String.length k'
                               <= String.length (ser (snd kv) k')) ms ->
  list_sum (map (fun kv => S (weight (snd kv))) ms) + String.length k
    <= String.length (ser_members ser separator colon closing k ms).
Proof.
  intros H. induction H as [|[key x] ms Hx _ IH];
    unfold list_sum in *; cbn [ser_members map fold_right snd].
  - rewrite !length_append. lia.
  - rewrite length_append. cbn [snd] in Hx.
    pose proof (length_QuoteJSONString key
                  (colon ++ ser x (ser_members ser separator colon closing k ms))) as Q.
    rewrite length_append in Q.
    specialize (Hx (ser_members ser separator colon closing k ms)). lia.
Qed.

Lemma textual_fits (v : json) : textual v = true -> fits v.
Proof.
  induction v as [| b | x | s | items IH | members IH] using json_induction;
    intros T indent k.
  - cbn. lia.
  - destruct b; cbn; lia.
  - discriminate T.
  - cbn [SerializeJSONProperty weight]. pose proof (length_QuoteJSONString s k). lia.
  - destruct items as [|x xs]; [cbn; lia|].
    cbn [textual forallb] in T. apply andb_true_iff in T as [Tx Txs].
    apply Forall_cons_iff in IH as [IHx IHxs].
    change (SerializeJSONProperty "  " indent (JArr (x :: xs)) k)
      with (String "[" (nl ++ (indent ++ "  ") ++
              SerializeJSONProperty "  " (indent ++ "  ") x
                (ser_elements (SerializeJSONProperty "  " (indent ++ "  "))
                   (String "," (nl ++ indent ++ "  ")) (nl ++ indent) k xs))).
    cbn [String.length weight]. rewrite !length_append.
    pose proof (IHx Tx (indent ++ "  ")
                  (ser_elements (SerializeJSONProperty "  " (indent ++ "  "))
                     (String "," (nl ++ indent ++ "  ")) (nl ++ indent) k xs)) as Hx.
    pose proof (length_ser_elements (SerializeJSONProperty "  " (indent ++ "  "))
                  (String "," (nl ++ indent ++ "  ")) (nl ++ indent) k xs) as Hxs.
    cbn [String.length] in Hxs.
    assert (G : Forall (fun x => forall k', weight x + String.length k'
                 <= String.length (SerializeJSONProperty "  " (indent ++ "  ") x k')) xs).
    { rewrite forallb_forall in Txs. rewrite Forall_forall in IHxs |- *.
      intros y Hy k'. now apply IHxs; auto. }
    specialize (Hxs G). unfold list_sum, nl in *. cbn [map fold_right String.length] in *. lia.
  - destruct members as [|[key x] ms]; [cbn; lia|].
    cbn [textual] in T. apply andb_true_iff in T as [_ T].
    cbn [forallb snd] in T. apply andb_true_iff in T as [Tx Tms].
    apply Forall_cons_iff in IH as [IHx IHms]. cbn [snd] in IHx.
    change (SerializeJSONProperty "  " indent (JObj ((key, x) :: ms)) k)
      with (String "{" (nl ++ (indent ++ "  ") ++
              QuoteJSONString key (": " ++
                SerializeJSONProperty "  " (indent ++ "  ") x
                  (ser_members (SerializeJSONProperty "  " (indent ++ "  "))
                     (String "," (nl ++ indent ++ "  ")) ": " (nl ++ indent) k ms)))).
    cbn [String.length weight]. rewrite !length_append.
    pose proof (length_QuoteJSONString key (": " ++
                SerializeJSONProperty "  " (indent ++ "  ") x
                  (ser_members (SerializeJSONProperty "  " (indent ++ "  "))
                     (String "," (nl ++ indent ++ "  ")) ": " (nl ++ indent) k ms))) as Q.
    rewrite length_append in Q.
    pose proof (IHx Tx (indent ++ "  ")
                  (ser_members (SerializeJSONProperty "  " (indent ++ "  "))
                     (String "," (nl ++ indent ++ "  ")) ": " (nl ++ indent) k ms)) as Hx.
    pose proof (length_ser_members (SerializeJSONProperty "  " (indent ++ "  "))
                  (String "," (nl ++ indent ++ "  ")) ": " (nl ++ indent) k ms) as Hms.
    assert (G : Forall (fun kv => forall k', weight (snd kv) + String.length k'
                 <= String.length (SerializeJSONProperty "  " (indent ++ "  ") (snd kv) k')) ms).
    { rewrite forallb_forall in Tms. rewrite Forall_forall in IHms |- *.
      intros y Hy k'. now apply IHms; auto. }
    specialize (Hms G). unfold list_sum, nl in *. cbn [map fold_right snd String.length] in *. lia.
Qed.

(** [JSON.parse(JSON.stringify(v, null, 2))] is [v] for every value without
    numbers whose objects have distinct keys. *)
Lemma JSON_parse_stringify (v : json) :
  textual v = true -> JSON_parse (JSON_stringify v 2) = Some v.
Proof.
  intros T. unfold JSON_parse, JSON_stringify.
  change (String.concat "" (repeat " " (Nat.min 2 10))) with "  ".
  rewrite (textual_reads_back v T "" "").
  - reflexivity.
  - reflexivity.
  - pose proof (textual_fits v T "" ""). lia.
Qed.

Example parse_sample_listing :
  JSON_parse (JSON_stringify sample_data 2) = Some sample_data.
Proof. vm_compute. reflexivity. Qed.

Example parse_rejects_trailing_comma : JSON_parse "[null,]" = None.
Proof. vm_compute. reflexivity. Qed.

Example parse_number_literals :
  JSON_parse "[1, -0.5e1, 25E-1]" = Some (JArr [JNum 1; JNum (-5); JNum 2.5]).
Proof. vm_compute. reflexivity. Qed.

(** ** Table listings through [list_tables] *)

Lemma obj_get_in (k : string) (v : json) (members : list (string * json)) :
  NoDup (map fst members) -> In (k, v) members -> obj_get k members = Some v.
Proof.
  induction members as [|[k' v'] members IH]; [contradiction|].
  cbn [map fst obj_get]. intros N [E|I].
  - injection E as -> ->. now rewrite String.eqb_refl.
  - apply NoDup_cons_iff in N as [N1 N2].
    destruct (String.eqb_spec k k') as [->|_]; [|now apply IH].
    exfalso. apply N1. change k' with (fst (k', v)). now apply in_map.
Qed.

Lemma row_members_keys (r : TableRow) :
  map fst (row_members r) = ["schema"; "name"; "comment"].
Proof. reflexivity. Qed.

Lemma table_entry_encoded (v : json) (r : TableRow) :
  encodes_row v r -> table_entry (Some v) = Some (row_to_json r).
Proof.
  intros (members & -> & P).
  assert (N : NoDup (map fst members)).
  { apply Permutation_NoDup with (map fst (row_members r)).
    - apply Permutation_map. now apply Permutation_sym.
    - rewrite row_members_keys.
      repeat constructor; cbn [In]; intuition discriminate. }
  assert (G : forall k x, In (k, x) (row_members r) -> obj_get k members = Some x).
  { intros k x I. apply obj_get_in; [exact N|].
    apply Permutation_in with (row_members r); [now apply Permutation_sym | exact I]. }
  unfold table_entry.
  rewrite (G "schema" (JStr (schema r))) by (cbn; auto).
  rewrite (G "name" (JStr (name r))) by (cbn; auto).
  rewrite (G "comment" (match comment r with Some c => JStr c | None => JNull end))
    by (cbn; auto).
  unfold row_to_json, row_members. now destruct (comment r).
Qed.

Lemma ListTablesOutputSchema_encoded (data : json) (rows : list TableRow) :
  encodes data rows -> ListTablesOutputSchema data = Some (listing rows).
Proof.
  intros (items & -> & F). unfold ListTablesOutputSchema, z_array, listing.
  induction F as [|v r items rows E _ IH]; [reflexivity|].
  cbn [fold_right map]. rewrite (table_entry_encoded v r E).
  destruct (fold_right _ _ items) as [l|]; [|discriminate IH].
  cbn [option_map] in *. now injection IH as ->.
Qed.

Lemma textual_listing (rows : list TableRow) : textual (listing rows) = true.
Proof.
  unfold listing. cbn [textual].
  induction rows as [|r rows IH]; [reflexivity|].
  cbn [map forallb]. rewrite IH, andb_true_r.
  unfold row_to_json, row_members. destruct (comment r); reflexivity.
Qed.

Lemma encodes_listing (rows : list TableRow) : encodes (listing rows) rows.
Proof.
  exists (map row_to_json rows). split; [reflexivity|].
  induction rows as [|r rows IH]; constructor; [|exact IH].
  now exists (row_members r).
Qed.

(** C4: in a session that passes the guard, when the remote call reports
    no error and its data is a sequence of records
    [{schema: string, name: string, comment: string|null}], the handler
    returns a success whose single text payload parses as JSON to that
    same sequence of records. *)
Theorem list_tables_round_trip
  (rejection : string -> string -> option JsError)
  (backend : SupabaseClient -> string -> json -> RpcResponse)
  (w : World) (url key : string) (data : json) (rows : list TableRow) :
  isConfigured (state w) = true ->
  supabaseUrl (state w) = Some url -> url <> "" ->
  supabaseAnonKey (state w) = Some key -> key <> "" ->
  rejection url key = None ->
  backend {| client_url := url; client_key := key |} "execute_sql" execute_sql_args
    = Resolved data None ->
  encodes data rows ->
  exists payload,
    fst (list_tables_handler rejection backend tt w) = Ret (Ok payload) /\
    content (Ok payload) = [{| type := "text"; text := payload |}] /\
    JSON_parse payload = Some (listing rows).
Proof.
  intros Hc Hu Hu' Hk Hk' X B E.
  rewrite (list_tables_ready rejection backend w url key Hc Hu Hu' Hk Hk' X), B.
  rewrite (ListTablesOutputSchema_encoded data rows E).
  exists (JSON_stringify (listing rows) 2). repeat split.
  apply JSON_parse_stringify, textual_listing.
Qed.

Lemma sample_data_encodes : encodes sample_data sample_rows.
Proof.
  exists [ JObj [("schema", JStr "public"); ("name", JStr "users"); ("comment", JNull)];
           JObj [("name", JStr "orders"); ("comment", JStr "Customer orders");
                 ("schema", JStr "public")] ].
  split; [reflexivity|]. repeat constructor.
  - eexists. split; [reflexivity|]. apply Permutation_refl.
  - eexists. split; [reflexivity|]. cbn [row_members sample_rows schema name comment].
    apply Permutation_sym.
    apply (Permutation_cons_app [("name", JStr "orders"); ("comment", JStr "Customer orders")] []).
    apply Permutation_refl.
Qed.

Lemma list_tables_round_trip_witness :
  exists payload,
    fst (list_tables_handler rejects_malformed (fun _ _ _ => Resolved sample_data None) tt
           (run http_url rejects_malformed [configure_project] fresh)) = Ret (Ok payload) /\
    JSON_parse payload = Some (listing sample_rows).
Proof.
  destruct (list_tables_round_trip rejects_malformed (fun _ _ _ => Resolved sample_data None)
              (run http_url rejects_malformed [configure_project] fresh)
              "https://project.supabase.co" "anon-key" sample_data sample_rows)
    as (payload & R & _ & P);
    try reflexivity; try discriminate; [exact sample_data_encodes|].
  exists payload. split; [exact R | exact P].
Defined.

(** * Further properties of the session-scoped agent *)

(** ** The service-role client factory *)

Lemma createSupabaseServiceRoleClient_built
  (rejection : string -> string -> option JsError) (url key : string) (w : World) :
  url <> "" -> key <> "" ->
  createSupabaseServiceRoleClient rejection (Some url) (Some key) w =
    (match rejection url key with
     | Some e => Throw e
     | None => Ret {| client_url := url; client_key := key |}
     end,
     {| state := state w; trace := trace w ++ [CreateClient url key] |}).
Proof.
  intros Hu Hk. unfold createSupabaseServiceRoleClient.
  apply String.eqb_neq in Hu, Hk. rewrite Hu, Hk. cbn [orb].
  unfold createClient, bind, emit. now destruct (rejection url key).
Qed.

Lemma createSupabaseClient_built
  (rejection : string -> string -> option JsError) (url key : string) (w : World) :
  url <> "" -> key <> "" ->
  createSupabaseClient rejection (Some url) (Some key) w =
    (match rejection url key with
     | Some e => Throw e
     | None => Ret {| client_url := url; client_key := key |}
     end,
     {| state := state w; trace := trace w ++ [CreateClient url key] |}).
Proof.
  intros Hu Hk. unfold createSupabaseClient.
  apply String.eqb_neq in Hu, Hk. rewrite Hu, Hk. cbn [orb].
  unfold createClient, bind, emit. now destruct (rejection url key).
Qed.

Lemma createSupabaseServiceRoleClient_throws
  (rejection : string -> string -> option JsError) (url key : option string) (w : World) :
  truthy url = false \/ truthy key = false ->
  createSupabaseServiceRoleClient rejection url key w =
    (Throw {| message := "Supabase URL and Service Role Key are required to create a service role client." |}, w).
Proof.
  intros H. unfold createSupabaseServiceRoleClient.
  destruct url as [u|], key as [k|]; try reflexivity.
  assert (E : (String.eqb u "" || String.eqb k "")%bool = true).
  { simpl in H. rewrite !negb_false_iff in H. now apply orb_true_iff. }
  rewrite E. reflexivity.
Qed.

(** X1: [createSupabaseServiceRoleClient] throws exactly when the URL or
    the service key is empty or absent, or the constructor raises an
    exception on them.  In the first case it throws its own error and
    calls nothing; otherwise it calls the constructor once and comes to
    what the constructor comes to, as [createSupabaseClient] does with
    the same two strings. *)
Theorem service_role_client_needs_credentials
  (rejection : string -> string -> option JsError)
  (url key : option string) (w : World) :
  ((exists e w', createSupabaseServiceRoleClient rejection url key w = (Throw e, w')) <->
   ((url = None \/ url = Some "") \/ (key = None \/ key = Some "")) \/
   (exists u k e, url = Some u /\ key = Some k /\ rejection u k = Some e)) /\
  (truthy url = false \/ truthy key = false ->
   createSupabaseServiceRoleClient rejection url key w =
     (Throw {| message := "Supabase URL and Service Role Key are required to create a service role client." |},
      w)) /\
  (forall u k,
     url = Some u -> u <> "" -> key = Some k -> k <> "" ->
     createSupabaseServiceRoleClient rejection url key w =
       createSupabaseClient rejection url key w /\
     createSupabaseServiceRoleClient rejection url key w =
       (match rejection u k with
        | Some e => Throw e
        | None => Ret {| client_url := u; client_key := k |}
        end,
        {| state := state w; trace := trace w ++ [CreateClient u k] |})).
Proof.
  split; [|split].
  - rewrite <- !truthy_false.
    destruct (truthy url) eqn:Tu; [destruct (truthy key) eqn:Tk|].
    + apply truthy_true in Tu as (u & -> & Hu), Tk as (k & -> & Hk).
      rewrite createSupabaseServiceRoleClient_built by assumption.
      destruct (rejection u k) as [e|] eqn:X; split.
      * intros _. right. now exists u, k, e.
      * eauto.
      * intros (e & w' & [=]).
      * intros [[H|H] | (u' & k' & e & [= <-] & [= <-] & X')]; congruence.
    + rewrite createSupabaseServiceRoleClient_throws by now right.
      split; [intros _; left; now right | eauto].
    + rewrite createSupabaseServiceRoleClient_throws by now left.
      split; [intros _; left; now left | eauto].
  - apply createSupabaseServiceRoleClient_throws.
  - intros u k -> Hu -> Hk.
    now rewrite createSupabaseServiceRoleClient_built, createSupabaseClient_built.
Qed.

Lemma service_role_client_needs_credentials_witness :
  createSupabaseServiceRoleClient rejects_malformed
    (Some "https://project.supabase.co") (Some "") fresh
  = (Throw {| message := "Supabase URL and Service Role Key are required to create a service role client." |},
     fresh) /\
  createSupabaseServiceRoleClient rejects_malformed (Some "https://x.co ") (Some "k") fresh
  = (Throw {| message := "Invalid URL" |},
     {| state := initialState; trace := [CreateClient "https://x.co " "k"] |}).
Proof.
  split.
  - exact (proj1 (proj2 (service_role_client_needs_credentials rejects_malformed
                           (Some "https://project.supabase.co") (Some "") fresh))
             (or_intror eq_refl)).
  - refine (proj2 (proj2 (proj2 (service_role_client_needs_credentials rejects_malformed
                                   (Some "https://x.co ") (Some "k") fresh))
                     "https://x.co " "k" eq_refl _ eq_refl _)); discriminate.
Defined.

(** ** What [list_tables] does to the world *)

(** The effect of one [list_tables] call: the state is kept; when the
    guard fails nothing is appended to the trace; when it holds, one
    attempt with the credentials in the state is appended, followed by at
    most one console line. *)
Lemma list_tables_effect
  (rejection : string -> string -> option JsError)
  (backend : SupabaseClient -> string -> json -> RpcResponse) (w : World) :
  let w' := snd (list_tables_handler rejection backend tt w) in
  state w' = state w /\
  ((ready (state w) = false /\ trace w' = trace w) \/
   (exists url key logs,
      ready (state w) = true /\
      supabaseUrl (state w) = Some url /\ supabaseAnonKey (state w) = Some key /\
      trace w' =
        (trace w ++ attempt rejection {| client_url := url; client_key := key |} ++ logs)%list /\
      filter is_backend_event logs = [] /\ List.length logs <= 1)).
Proof.
  intros w'. subst w'.
  destruct (list_tables_cases rejection backend w)
    as [(R & ->) | [(url & key & e & R & Hu & Hk & X & ->)
                   | (url & key & r & logs & R & Hu & Hk & X & F & L & ->)]];
    cbn [snd state trace]; (split; [reflexivity|]).
  - now left.
  - right. exists url, key, []. unfold attempt. cbn [client_url client_key]. rewrite X.
    repeat split; try assumption; cbn; auto.
  - right. exists url, key, logs. unfold attempt. cbn [client_url client_key]. rewrite X.
    repeat split; try assumption.
    clear - F. induction F as [|e logs E _ IH]; [reflexivity|].
    cbn [filter]. now rewrite E.
Qed.

(** X2: [list_tables] never writes the session state and only appends to
    the trace: at most one constructor call, one remote call and one
    console line per call, whatever the remote database answers; the
    constructor call stands alone exactly when the handler throws. *)
Theorem list_tables_only_appends
  (rejection : string -> string -> option JsError)
  (backend : SupabaseClient -> string -> json -> RpcResponse) (w : World) :
  let w' := snd (list_tables_handler rejection backend tt w) in
  state w' = state w /\
  exists tail,
    trace w' = (trace w ++ tail)%list /\
    List.length tail <= 3 /\
    (backend_calls w' = backend_calls w \/
     backend_calls w' = backend_calls w + 1 \/
     backend_calls w' = backend_calls w + 2) /\
    (backend_calls w' = backend_calls w + 1 <->
     exists e, fst (list_tables_handler rejection backend tt w) = Throw e).
Proof.
  intros w'. subst w'.
  destruct (list_tables_cases rejection backend w)
    as [(R & ->) | [(url & key & e & R & Hu & Hk & X & ->)
                   | (url & key & r & logs & R & Hu & Hk & X & F & L & ->)]];
    cbn [fst snd state trace]; (split; [reflexivity|]).
  - exists []. rewrite app_nil_r. split; [reflexivity|]. split; [cbn; lia|].
    split; [now left|]. split; [lia | intros (e & [=])].
  - exists [CreateClient url key]. split; [reflexivity|]. split; [cbn; lia|].
    assert (B : backend_calls {| state := state w; trace := trace w ++ [CreateClient url key] |}
                = backend_calls w + 1).
    { unfold backend_calls. cbn [trace]. now rewrite filter_app, length_app. }
    split; [right; now left|]. split; [eauto | intros _; exact B].
  - eexists. split; [reflexivity|]. split; [cbn [List.length app]; lia|].
    assert (B : backend_calls
                  {| state := state w;
                     trace := trace w ++
                              [CreateClient url key;
                               Rpc {| client_url := url; client_key := key |} "execute_sql"
                                 execute_sql_args] ++ logs |}
                = backend_calls w + 2).
    { unfold backend_calls. cbn [trace app]. rewrite filter_app, length_app.
      cbn [filter is_backend_event List.length]. f_equal.
      assert (E : filter is_backend_event logs = []).
      { clear - F. induction F as [|e logs E _ IH]; [reflexivity|].
        cbn [filter]. now rewrite E. }
      now rewrite E. }
    split; [right; now right|]. split; [lia | intros (e & [=])].
Qed.

(** X3: a rejected remote call is caught: the handler returns the failure
    "Exception: " followed by the error's message and logs one console
    line, after one client construction and one remote call. *)
Theorem list_tables_rpc_rejected
  (rejection : string -> string -> option JsError)
  (backend : SupabaseClient -> string -> json -> RpcResponse)
  (w : World) (url key : string) (e : JsError) :
  isConfigured (state w) = true ->
  supabaseUrl (state w) = Some url -> url <> "" ->
  supabaseAnonKey (state w) = Some key -> key <> "" ->
  rejection url key = None ->
  backend {| client_url := url; client_key := key |} "execute_sql" execute_sql_args
    = Rejected e ->
  list_tables_handler rejection backend tt w =
    (Ret (Failure ("Exception: " ++ message e)),
     {| state := state w;
        trace := (trace w ++ request {| client_url := url; client_key := key |} ++
                  [ConsoleError "Exception in list_tables tool:"])%list |}).
Proof.
  intros Hc Hu Hu' Hk Hk' X B.
  rewrite (list_tables_ready rejection backend w url key Hc Hu Hu' Hk Hk' X), B.
  cbn [request client_url client_key]. now rewrite <- !app_assoc.
Qed.

Lemma list_tables_rpc_rejected_witness :
  fst (list_tables_handler rejects_malformed unreachable_database tt
         (run http_url rejects_malformed [configure_project] fresh))
  = Ret (Failure "Exception: fetch failed").
Proof.
  rewrite (list_tables_rpc_rejected rejects_malformed unreachable_database
             (run http_url rejects_malformed [configure_project] fresh)
             "https://project.supabase.co" "anon-key" {| message := "fetch failed" |});
    (reflexivity || discriminate).
Defined.

(** X4: the service key kept in the session state is never read by
    [list_tables]: with any other service key the result and the trace
    are the same. *)
Theorem list_tables_ignores_service_key
  (rejection : string -> string -> option JsError)
  (backend : SupabaseClient -> string -> json -> RpcResponse)
  (w : World) (key : option string) :
  fst (list_tables_handler rejection backend tt (with_service_key key w)) =
  fst (list_tables_handler rejection backend tt w) /\
  trace (snd (list_tables_handler rejection backend tt (with_service_key key w))) =
  trace (snd (list_tables_handler rejection backend tt w)) /\
  supabaseServiceKey (state (snd (list_tables_handler rejection backend tt (with_service_key key w)))) = key.
Proof.
  destruct (ready (state w)) eqn:R.
  - apply ready_spec in R as (Hc & (url & Hu & Hu') & (k & Hk & Hk')).
    destruct (rejection url k) as [e|] eqn:X.
    + rewrite (list_tables_rejected rejection backend w url k e Hc Hu Hu' Hk Hk' X).
      rewrite (list_tables_rejected rejection backend (with_service_key key w) url k e
                 Hc Hu Hu' Hk Hk' X).
      repeat split.
    + rewrite (list_tables_ready rejection backend w url k Hc Hu Hu' Hk Hk' X).
      rewrite (list_tables_ready rejection backend (with_service_key key w) url k
                 Hc Hu Hu' Hk Hk' X).
      cbn [with_service_key state trace].
      destruct (backend _ _ _) as [data [err|]|e]; try (repeat split; reflexivity).
      destruct (ListTablesOutputSchema data); repeat split; reflexivity.
  - rewrite !list_tables_not_ready by exact R. repeat split.
Qed.

(** ** Credentials across a session *)

(** X5: [list_tables] hands the constructor the credentials of the latest
    valid [configure_supabase_instance] call, whatever the session held
    before, and the remote call, made when the constructor returns, goes
    through the client built from them: no client outlives a
    reconfiguration. *)
Theorem list_tables_uses_latest_credentials (is_url : string -> bool)
  (rejection : string -> string -> option JsError)
  (backend1 backend2 : SupabaseClient -> string -> json -> RpcResponse)
  (raw : json) (input : Config.input) (w : World) :
  configShape is_url raw = Some input ->
  Config.supabaseUrl input <> "" -> Config.supabaseAnonKey input <> "" ->
  let w1 := snd (dispatch is_url rejection backend1 "configure_supabase_instance" raw w) in
  let client := {| client_url := Config.supabaseUrl input;
                   client_key := Config.supabaseAnonKey input |} in
  exists logs,
    trace (snd (list_tables_handler rejection backend2 tt w1)) =
      (trace w ++ attempt rejection client ++ logs)%list /\
    filter is_backend_event logs = [] /\
    (rejection (Config.supabaseUrl input) (Config.supabaseAnonKey input) = None ->
     attempt rejection client = request client).
Proof.
  intros V Hu Hk w1 client.
  assert (E : w1 = {| state := {| isConfigured := true;
                                  supabaseUrl := Some (Config.supabaseUrl input);
                                  supabaseAnonKey := Some (Config.supabaseAnonKey input);
                                  supabaseServiceKey := Config.supabaseServiceKey input |};
                      trace := trace w |}).
  { subst w1. now rewrite dispatch_configure, V. }
  destruct (list_tables_effect rejection backend2 w1)
    as [_ [[R _] | (url & key & logs & _ & U & K & T & F & _)]].
  - rewrite E in R. unfold ready in R. cbn [state isConfigured supabaseUrl supabaseAnonKey truthy] in R.
    apply String.eqb_neq in Hu, Hk. rewrite Hu, Hk in R. discriminate R.
  - exists logs. split; [|split; [exact F|]].
    + rewrite T. rewrite E in U, K. cbn [state supabaseUrl supabaseAnonKey] in U, K.
      injection U as <-. injection K as <-. now rewrite E.
    + intros X. unfold attempt. subst client. cbn [client_url client_key]. now rewrite X.
Qed.

Lemma list_tables_uses_latest_credentials_witness :
  let w := run http_url rejects_malformed [configure_project] fresh in
  let w1 := snd (dispatch http_url rejects_malformed empty_database "configure_supabase_instance"
                   (JObj [("supabaseUrl", JStr "https://other.supabase.co");
                          ("supabaseAnonKey", JStr "other-key")]) w) in
  exists logs,
    trace (snd (list_tables_handler rejects_malformed empty_database tt w1)) =
      (request {| client_url := "https://other.supabase.co"; client_key := "other-key" |}
       ++ logs)%list.
Proof.
  intros w w1.
  destruct (list_tables_uses_latest_credentials http_url rejects_malformed
              empty_database empty_database
              (JObj [("supabaseUrl", JStr "https://other.supabase.co");
                     ("supabaseAnonKey", JStr "other-key")])
              {| Config.supabaseUrl := "https://other.supabase.co";
                 Config.supabaseAnonKey := "other-key";
                 Config.supabaseServiceKey := None |}
              w eq_refl) as (logs & T & _ & A); try discriminate.
  exists logs. rewrite (A eq_refl) in T. exact T.
Defined.

Lemma attempts_app (rejection : string -> string -> option JsError)
  (l1 l2 : list SupabaseClient) :
  attempts rejection (l1 ++ l2) = (attempts rejection l1 ++ attempts rejection l2)%list.
Proof. apply flat_map_app. Qed.

Lemma attempt_backend (rejection : string -> string -> option JsError) (c : SupabaseClient) :
  filter is_backend_event (attempt rejection c) = attempt rejection c.
Proof.
  unfold attempt. now destruct (rejection _ _).
Qed.

Lemma dispatch_keeps_listed_only (is_url : string -> bool)
  (rejection : string -> string -> option JsError)
  (backend : SupabaseClient -> string -> json -> RpcResponse)
  (name : string) (raw : json) (w : World) :
  credentials_present is_url (state w) ->
  listed_only is_url rejection w ->
  listed_only is_url rejection (snd (dispatch is_url rejection backend name raw w)).
Proof.
  intros I L. pattern name. apply dispatch_cases.
  - rewrite dispatch_configure. now destruct (configShape is_url raw).
  - rewrite dispatch_add. now destruct (addToolShape raw).
  - rewrite dispatch_list_tables. destruct raw; try exact L. cbn [emptyShape].
    assert (G : listed_only is_url rejection (snd (list_tables_handler rejection backend tt w))).
    { destruct (list_tables_effect rejection backend w)
        as [_ [[_ T] | (url & key & logs & R & U & K & T & F & _)]].
      - destruct L as (clients & E & A). exists clients. now rewrite T.
      - destruct L as (clients & E & A).
        exists (clients ++ [{| client_url := url; client_key := key |}])%list. split.
        + rewrite T, !filter_app, F, E, attempts_app, app_nil_r, attempt_backend.
          cbn [attempts flat_map]. now rewrite app_nil_r.
        + apply Forall_app. split; [exact A|]. constructor; [|constructor].
          cbn [client_url client_key].
          apply ready_spec in R as (C & (u & Hu & _) & (k & Hk & Hk')).
          destruct (I C) as [(u' & Hu' & V) _].
          split; [congruence|]. congruence. }
    now destruct (list_tables_handler rejection backend tt w) as [[r|e] w'].
  - intros N1 N2 N3. now rewrite dispatch_unknown.
Qed.

(** X6: throughout any session the only interactions with the remote
    database are attempts to list the tables: each is a constructor call
    with a URL the schema accepted and a non-empty anon key, followed,
    exactly when the constructor returned, by one [execute_sql] call with
    the fixed query through the client just built. *)
Theorem session_requests_are_table_listings (is_url : string -> bool)
  (rejection : string -> string -> option JsError) (calls : list Call) :
  exists clients,
    filter is_backend_event (trace (run is_url rejection calls fresh)) =
      flat_map
        (fun c =>
           CreateClient (client_url c) (client_key c) ::
           match rejection (client_url c) (client_key c) with
           | None => [Rpc c "execute_sql" (JObj [("query", JStr listTablesSql)])]
           | Some _ => []
           end)
        clients /\
    Forall (fun c => is_url (client_url c) = true /\ client_key c <> "") clients.
Proof.
  enough (G : forall w, credentials_present is_url (state w) -> listed_only is_url rejection w ->
                listed_only is_url rejection (run is_url rejection calls w)).
  { destruct (G fresh) as (clients & E & A).
    - intros C. discriminate C.
    - exists []. split; [reflexivity | constructor].
    - exists clients. split; [|exact A]. rewrite E. unfold attempts.
      apply flat_map_ext. intros c. unfold attempt, request, execute_sql_args.
      now destruct (rejection _ _). }
  induction calls as [|c calls IH]; intros w I L; [exact L|].
  cbn [run]. apply IH.
  - now apply dispatch_keeps_invariant.
  - now apply dispatch_keeps_listed_only.
Qed.

Lemma session_requests_are_table_listings_witness :
  filter is_backend_event
    (trace (run http_url rejects_malformed
              [ {| call_backend := empty_database;
                   call_name := "configure_supabase_instance";
                   call_input := JObj [("supabaseUrl", JStr "https://x.co ");
                                       ("supabaseAnonKey", JStr "k")] |};
                {| call_backend := empty_database; call_name := "list_tables";
                   call_input := JObj [] |};
                configure_project;
                {| call_backend := unreachable_database; call_name := "list_tables";
                   call_input := JObj [] |} ] fresh))
  = [ CreateClient "https://x.co " "k";
      CreateClient "https://project.supabase.co" "anon-key";
      Rpc {| client_url := "https://project.supabase.co"; client_key := "anon-key" |}
        "execute_sql" execute_sql_args ] /\
  exists clients,
    filter is_backend_event
      (trace (run http_url rejects_malformed [configure_project] fresh)) =
    flat_map
      (fun c =>
         CreateClient (client_url c) (client_key c) ::
         match rejects_malformed (client_url c) (client_key c) with
         | None => [Rpc c "execute_sql" (JObj [("query", JStr listTablesSql)])]
         | Some _ => []
         end)
      clients.
Proof.
  split; [reflexivity|].
  destruct (session_requests_are_table_listings http_url rejects_malformed [configure_project])
    as (clients & E & _).
  now exists clients.
Defined.

(** ** What the schema lets through *)

Lemma table_entry_strips (v out : json) :
  table_entry (Some v) = Some out -> strips_entry v out /\ textual out = true.
Proof.
  unfold table_entry. destruct v as [| | | | |members]; try discriminate.
  destruct (obj_get "schema" members) as [[| | |s| |]|] eqn:S; try discriminate.
  destruct (obj_get "name" members) as [[| | |n| |]|] eqn:N; try discriminate.
  cbn [z_string].
  assert (G : forall tail (c : option json),
            obj_get "comment" members = c ->
            (tail = match c with Some x => [("comment", x)] | None => [] end) ->
            forall k, obj_get k ([("schema", JStr s); ("name", JStr n)] ++ tail)
                      = if listed_key k then obj_get k members else None).
  { intros tail c C -> k. unfold listed_key. cbn [app obj_get].
    destruct (String.eqb_spec k "schema") as [->|_]; [now rewrite S|].
    destruct (String.eqb_spec k "name") as [->|_]; [now rewrite N|].
    destruct (String.eqb_spec k "comment") as [->|K]; cbn [orb].
    - rewrite C. destruct c; cbn [obj_get]; [now rewrite String.eqb_refl | reflexivity].
    - destruct c; cbn [obj_get]; [|reflexivity].
      apply String.eqb_neq in K. now rewrite K. }
  destruct (obj_get "comment" members) as [[| | |c| |]|] eqn:C; try discriminate;
    cbn [z_optional z_nullable z_string option_map]; intros [= <-];
    (split; [|reflexivity]);
    eexists; eexists; (split; [reflexivity|]); (split; [reflexivity|]);
    eapply G; reflexivity.
Qed.

Lemma ListTablesOutputSchema_strips (data out : json) :
  ListTablesOutputSchema data = Some out -> strips data out /\ textual out = true.
Proof.
  unfold ListTablesOutputSchema, z_array, strips.
  destruct data as [| | | |items|]; try discriminate.
  revert out. induction items as [|v items IH]; intros out H.
  - injection H as <-. split; [|reflexivity]. exists [], []. repeat split. constructor.
  - cbn [fold_right] in H. destruct (table_entry (Some v)) as [o|] eqn:E; [|discriminate H].
    destruct (fold_right _ _ items) as [l|]; [|discriminate H].
    injection H as <-.
    destruct (IH (JArr l) eq_refl) as ((items' & outs & [= <-] & [= <-] & F) & T).
    apply table_entry_strips in E as [Se Te]. split.
    + exists (v :: items), (o :: l). repeat split. now constructor.
    + cbn [textual forallb] in *. now rewrite Te, T.
Qed.

(** X7: whatever data the schema accepts, with unknown members or without
    a comment, the text payload parses as JSON to what the schema kept:
    of each record its [schema], [name] and [comment] members as they
    came, and no other member. *)
Theorem list_tables_payload_is_stripped_listing
  (rejection : string -> string -> option JsError)
  (backend : SupabaseClient -> string -> json -> RpcResponse)
  (w : World) (url key : string) (data : json) :
  isConfigured (state w) = true ->
  supabaseUrl (state w) = Some url -> url <> "" ->
  supabaseAnonKey (state w) = Some key -> key <> "" ->
  rejection url key = None ->
  backend {| client_url := url; client_key := key |} "execute_sql" execute_sql_args
    = Resolved data None ->
  listing_shape data ->
  exists out payload,
    fst (list_tables_handler rejection backend tt w) = Ret (Ok payload) /\
    JSON_parse payload = Some out /\
    strips data out.
Proof.
  intros Hc Hu Hu' Hk Hk' X B S.
  apply ListTablesOutputSchema_accepts in S as (out & E).
  rewrite (list_tables_ready rejection backend w url key Hc Hu Hu' Hk Hk' X), B, E.
  apply ListTablesOutputSchema_strips in E as [St T].
  exists out, (JSON_stringify out 2). repeat split; [|exact St].
  now apply JSON_parse_stringify.
Qed.

Lemma wide_data_shape : listing_shape wide_data.
Proof.
  eexists. split; [reflexivity|]. repeat constructor.
  - eexists. split; [reflexivity|]. cbn. eauto 10.
  - eexists. split; [reflexivity|]. cbn. eauto 10.
Qed.

Lemma list_tables_payload_is_stripped_listing_witness :
  exists payload,
    fst (list_tables_handler rejects_malformed (fun _ _ _ => Resolved wide_data None) tt
           (run http_url rejects_malformed [configure_project] fresh)) = Ret (Ok payload) /\
    JSON_parse payload =
      Some (JArr [ JObj [("schema", JStr "public"); ("name", JStr "users"); ("comment", JNull)];
                   JObj [("schema", JStr "public"); ("name", JStr "orders")] ]).
Proof.
  destruct (list_tables_payload_is_stripped_listing rejects_malformed
              (fun _ _ _ => Resolved wide_data None)
              (run http_url rejects_malformed [configure_project] fresh)
              "https://project.supabase.co" "anon-key" wide_data)
    as (out & payload & R & P & _);
    try reflexivity; try discriminate; [exact wide_data_shape|].
  exists payload. split; [exact R|].
  rewrite P. f_equal.
  assert (E : JSON_parse (JSON_stringify
                (JArr [ JObj [("schema", JStr "public"); ("name", JStr "users"); ("comment", JNull)];
                        JObj [("schema", JStr "public"); ("name", JStr "orders")] ]) 2)
              = Some out).
  { rewrite <- P. f_equal. injection R as <-. reflexivity. }
  rewrite JSON_parse_stringify in E by reflexivity. now injection E.
Defined.

(** ** What the input schemas accept *)

(** X8: [configShape] accepts exactly the objects whose [supabaseUrl] is a
    string the URL test accepts, whose [supabaseAnonKey] is a string and
    whose [supabaseServiceKey] is a string or left out; a [null] service
    key, like any other non-string, is rejected and other members are
    ignored.  The parsed input holds those three values. *)
Theorem configShape_accepts (is_url : string -> bool) (raw : json) (input : Config.input) :
  configShape is_url raw = Some input <->
  exists members,
    raw = JObj members /\
    obj_get "supabaseUrl" members = Some (JStr (Config.supabaseUrl input)) /\
    is_url (Config.supabaseUrl input) = true /\
    obj_get "supabaseAnonKey" members = Some (JStr (Config.supabaseAnonKey input)) /\
    obj_get "supabaseServiceKey" members = option_map JStr (Config.supabaseServiceKey input).
Proof.
  unfold configShape, z_string_url. split.
  - destruct raw as [| | | | |members]; try discriminate.
    destruct (obj_get "supabaseUrl" members) as [[| | |u| |]|] eqn:Eu; try discriminate.
    cbn [z_string]. destruct (is_url u) eqn:U; [|discriminate].
    destruct (obj_get "supabaseAnonKey" members) as [[| | |k| |]|] eqn:Ek; try discriminate.
    destruct (obj_get "supabaseServiceKey" members) as [[| | |s| |]|] eqn:Es; try discriminate;
      cbn [z_optional z_string option_map]; intros [= <-]; exists members;
      repeat split; assumption.
  - intros (members & -> & -> & U & -> & S). cbn [z_string]. rewrite U, S.
    destruct input as [u k [s|]]; reflexivity.
Qed.

Lemma configShape_accepts_witness :
  configShape http_url
    (JObj [("supabaseUrl", JStr "https://project.supabase.co");
           ("supabaseAnonKey", JStr "anon-key");
           ("supabaseServiceKey", JNull)]) = None /\
  configShape http_url
    (JObj [("note", JBool true); ("supabaseUrl", JStr "https://project.supabase.co");
           ("supabaseAnonKey", JStr "anon-key")])
  = Some {| Config.supabaseUrl := "https://project.supabase.co";
            Config.supabaseAnonKey := "anon-key";
            Config.supabaseServiceKey := None |}.
Proof.
  split.
  - destruct (configShape http_url _) as [input|] eqn:E; [|reflexivity].
    apply configShape_accepts in E as (members & [= <-] & _ & _ & _ & S).
    destruct (Config.supabaseServiceKey input); discriminate S.
  - apply configShape_accepts. eexists. repeat split.
Defined.

(** X9: [addToolShape] accepts exactly the objects whose [a] and [b] are
    numbers other than [NaN]: a numeric string is not converted. *)
Theorem addToolShape_accepts (raw : json) (input : Add.input) :
  addToolShape raw = Some input <->
  exists members,
    raw = JObj members /\
    obj_get "a" members = Some (JNum (Add.a input)) /\ is_nan (Add.a input) = false /\
    obj_get "b" members = Some (JNum (Add.b input)) /\ is_nan (Add.b input) = false.
Proof.
  unfold addToolShape. split.
  - destruct raw as [| | | | |members]; try discriminate.
    destruct (obj_get "a" members) as [[| |a| | |]|] eqn:Ea; try discriminate.
    destruct (obj_get "b" members) as [[| |b| | |]|] eqn:Eb; cbn [z_number];
      destruct (is_nan a) eqn:Na; try discriminate.
    destruct (is_nan b) eqn:Nb; try discriminate.
    intros [= <-]. exists members. repeat split; assumption.
  - intros (members & -> & -> & Na & -> & Nb). cbn [z_number]. rewrite Na, Nb.
    now destruct input.
Qed.

Lemma addToolShape_accepts_witness :
  addToolShape (JObj [("a", JStr "2"); ("b", JNum 3)]) = None /\
  addToolShape (JObj [("b", JNum 3); ("a", JNum 2)]) = Some {| Add.a := 2; Add.b := 3 |}.
Proof.
  split.
  - destruct (addToolShape _) as [input|] eqn:E; [|reflexivity].
    apply addToolShape_accepts in E as (members & [= <-] & A & _). discriminate A.
  - apply addToolShape_accepts. eexists. repeat split.
Defined.

(** ** The arithmetic of [add] *)

Lemma SF64add_comm (x y : spec_float) : SF64add x y = SF64add y x.
Proof.
  unfold SF64add, SFadd.
  destruct x as [[|]|[|]| |sx mx ex], y as [[|]|[|]| |sy my ey]; try reflexivity.
  now rewrite Z.min_comm, Z.add_comm.
Qed.

Lemma add_zero (x : float) : Number_toString (x + 0)%float = Number_toString x.
Proof.
  unfold Number_toString. rewrite add_spec.
  change (Prim2SF 0) with (S754_zero false).
  destruct (Prim2SF x) as [[|]|[|]| |sx mx ex]; reflexivity.
Qed.

(** X10: the payload of [add] does not depend on the order of its two
    numbers, and adding zero gives the decimal string of the number
    itself. *)
Theorem add_commutes (a b : float) (w : World) :
  add_handler {| Add.a := a; Add.b := b |} w = add_handler {| Add.a := b; Add.b := a |} w /\
  add_handler {| Add.a := a; Add.b := 0 |} w = (Ret (Ok (Number_toString a)), w).
Proof.
  unfold add_handler. cbn [Add.a Add.b]. split.
  - do 3 f_equal. apply Prim2SF_inj. rewrite !add_spec. apply SF64add_comm.
  - now rewrite add_zero.
Qed.

(** ** When [list_tables] succeeds *)

(** X16: [list_tables] returns a success exactly when the session passes
    the guard, the constructor builds the client, the remote call reports
    no error and its data has the shape of a table listing; every result
    it returns, success or failure, carries one text item, and only a
    success lacks the error mark. *)
Theorem list_tables_succeeds_iff
  (rejection : string -> string -> option JsError)
  (backend : SupabaseClient -> string -> json -> RpcResponse) (w : World) :
  ((exists payload, fst (list_tables_handler rejection backend tt w) = Ret (Ok payload)) <->
   (exists url key data,
      isConfigured (state w) = true /\
      supabaseUrl (state w) = Some url /\ url <> "" /\
      supabaseAnonKey (state w) = Some key /\ key <> "" /\
      rejection url key = None /\
      backend {| client_url := url; client_key := key |} "execute_sql" execute_sql_args
        = Resolved data None /\
      listing_shape data)) /\
  (forall r,
     fst (list_tables_handler rejection backend tt w) = Ret r ->
     exists s, r = Ok s \/ r = Failure s).
Proof.
  assert (N : forall url key (P : Prop),
            supabaseUrl (state w) = Some url -> supabaseAnonKey (state w) = Some key ->
            (rejection url key = None ->
             forall data, backend {| client_url := url; client_key := key |}
                            "execute_sql" execute_sql_args = Resolved data None ->
                          listing_shape data -> False) ->
            (exists url0 key0 data,
               isConfigured (state w) = true /\
               supabaseUrl (state w) = Some url0 /\ url0 <> "" /\
               supabaseAnonKey (state w) = Some key0 /\ key0 <> "" /\
               rejection url0 key0 = None /\
               backend {| client_url := url0; client_key := key0 |} "execute_sql"
                 execute_sql_args = Resolved data None /\
               listing_shape data) -> P).
  { intros url key P Hu Hk H (u & k & data & _ & U & _ & K & _ & X & B & S).
    rewrite Hu in U. rewrite Hk in K. injection U as <-. injection K as <-.
    destruct (H X data B S). }
  destruct (ready (state w)) eqn:R.
  - apply ready_spec in R as (Hc & (url & Hu & Hu') & (key & Hk & Hk')).
    destruct (rejection url key) as [e|] eqn:X.
    { rewrite (list_tables_rejected rejection backend w url key e Hc Hu Hu' Hk Hk' X).
      cbn [fst]. split; [|discriminate]. split; [intros (p & H); discriminate H|].
      apply (N url key); try assumption. intros X'. congruence. }
    rewrite (list_tables_ready rejection backend w url key Hc Hu Hu' Hk Hk' X).
    destruct (backend _ _ _) as [data [err|]|e] eqn:B; cbn [fst].
    + split; [|intros r [= <-]; eauto]. split; [intros (p & H); discriminate H|].
      apply (N url key); try assumption. intros _ d H. rewrite B in H. discriminate H.
    + destruct (ListTablesOutputSchema data) as [out|] eqn:E; cbn [fst].
      * split; [|intros r [= <-]; eauto]. split; [|eauto].
        intros _. exists url, key, data. repeat split; try assumption.
        apply ListTablesOutputSchema_accepts. now exists out.
      * split; [|intros r [= <-]; eauto]. split; [intros (p & H); discriminate H|].
        apply (N url key); try assumption. intros _ d H S.
        rewrite B in H. injection H as <-.
        apply ListTablesOutputSchema_accepts in S as (out & S). congruence.
    + split; [|intros r [= <-]; eauto]. split; [intros (p & H); discriminate H|].
      apply (N url key); try assumption. intros _ d H. rewrite B in H. discriminate H.
  - rewrite list_tables_not_ready by exact R. cbn [fst].
    split; [|intros r [= <-]; eauto]. split; [intros (p & H); discriminate H|].
    intros (u & k & data & Hc & U & Hu & K & Hk & _).
    assert (R' : ready (state w) = true).
    { apply ready_spec. repeat split; eauto. }
    congruence.
Qed.

Lemma list_tables_succeeds_iff_witness :
  exists payload,
    fst (list_tables_handler rejects_malformed (fun _ _ _ => Resolved sample_data None) tt
           (run http_url rejects_malformed [configure_project] fresh)) = Ret (Ok payload).
Proof.
  apply (proj2 (proj1 (list_tables_succeeds_iff rejects_malformed
                         (fun _ _ _ => Resolved sample_data None)
                         (run http_url rejects_malformed [configure_project] fresh)))).
  exists "https://project.supabase.co", "anon-key", sample_data.
  repeat split; try discriminate.
  apply ListTablesOutputSchema_accepts. eexists. reflexivity.
Defined.

(** ** Configuration is never undone *)

Lemma run_app (is_url : string -> bool)
  (rejection : string -> string -> option JsError) (calls1 calls2 : list Call) (w : World) :
  run is_url rejection (calls1 ++ calls2) w = run is_url rejection calls2 (run is_url rejection calls1 w).
Proof.
  revert w. induction calls1 as [|c calls1 IH]; intros w; [reflexivity|].
  cbn [run app]. apply IH.
Qed.

Lemma dispatch_keeps_configured (is_url : string -> bool)
  (rejection : string -> string -> option JsError)
  (backend : SupabaseClient -> string -> json -> RpcResponse)
  (name : string) (raw : json) (w : World) :
  isConfigured (state w) = true ->
  isConfigured (state (snd (dispatch is_url rejection backend name raw w))) = true.
Proof.
  intros C. destruct (string_dec name "configure_supabase_instance") as [->|N].
  - rewrite dispatch_configure. now destruct (configShape is_url raw).
  - now rewrite dispatch_keeps_state.
Qed.

(** X17: no invocation clears [isConfigured]: once a session is
    configured it stays configured, whatever is called next, valid or
    not. *)
Theorem configured_stays_configured (is_url : string -> bool)
  (rejection : string -> string -> option JsError) (calls later : list Call) :
  isConfigured (state (run is_url rejection calls fresh)) = true ->
  isConfigured (state (run is_url rejection (calls ++ later) fresh)) = true.
Proof.
  rewrite run_app. generalize (run is_url rejection calls fresh). clear calls.
  induction later as [|c later IH]; intros w C; [exact C|].
  cbn [run]. apply IH. now apply dispatch_keeps_configured.
Qed.

Lemma configured_stays_configured_witness :
  isConfigured
    (state (run http_url rejects_malformed
              ([configure_project] ++
               [ {| call_backend := unreachable_database; call_name := "list_tables";
                    call_input := JObj [] |};
                 {| call_backend := empty_database;
                    call_name := "configure_supabase_instance";
                    call_input := JObj [("supabaseUrl", JStr "")] |} ]) fresh)) = true.
Proof.
  exact (configured_stays_configured http_url rejects_malformed [configure_project] _ eq_refl).
Defined.

(** * Properties of the stateless variant *)

Module LegacyFacts.
Import Legacy.

(** ** The memoized clients of the earlier [supabase.ts] *)

Lemma getSupabaseClient_cached
  (rejection : string -> string -> option JsError) (env : Env) (w : World) (c : SupabaseClient) :
  supabase w = Some c -> getSupabaseClient rejection env w = (Ret (Some c), w).
Proof.
  intros H. unfold getSupabaseClient, bind, get_supabase, ret. rewrite H.
  cbn. now rewrite H.
Qed.

Lemma usable_spec (env : Env) :
  usable env = true <->
  exists url key,
    SUPABASE_URL env = Some url /\ url <> "" /\
    SUPABASE_ANON_KEY env = Some key /\ key <> "".
Proof.
  unfold usable. rewrite andb_true_iff, !truthy_true. split.
  - intros [(u & U & Hu) (k & K & Hk)]. now exists u, k.
  - intros (u & k & U & Hu & K & Hk). split; eauto.
Qed.

Lemma getSupabaseClient_builds
  (rejection : string -> string -> option JsError) (env : Env) (w : World) (url key : string) :
  supabase w = None ->
  SUPABASE_URL env = Some url -> url <> "" ->
  SUPABASE_ANON_KEY env = Some key -> key <> "" ->
  rejection url key = None ->
  getSupabaseClient rejection env w =
    (Ret (Some {| client_url := url; client_key := key |}),
     {| supabase := Some {| client_url := url; client_key := key |};
        supabaseServiceRole := supabaseServiceRole w;
        trace := (trace w ++ [Did (CreateClient url key)])%list |}).
Proof.
  intros H U Hu K Hk X. unfold getSupabaseClient, bind at 1, get_supabase.
  rewrite H, U, K. apply String.eqb_neq in Hu, Hk. rewrite Hu, Hk. cbn [orb].
  unfold createClient, bind, emit. rewrite X. reflexivity.
Qed.

(** The constructor's exception leaves [getSupabaseClient] after the
    call; nothing is kept. *)
Lemma getSupabaseClient_rejected
  (rejection : string -> string -> option JsError) (env : Env) (w : World)
  (url key : string) (e : JsError) :
  supabase w = None ->
  SUPABASE_URL env = Some url -> url <> "" ->
  SUPABASE_ANON_KEY env = Some key -> key <> "" ->
  rejection url key = Some e ->
  getSupabaseClient rejection env w =
    (Throw e,
     {| supabase := None;
        supabaseServiceRole := supabaseServiceRole w;
        trace := (trace w ++ [Did (CreateClient url key)])%list |}).
Proof.
  intros H U Hu K Hk X. unfold getSupabaseClient, bind at 1, get_supabase.
  rewrite H, U, K. apply String.eqb_neq in Hu, Hk. rewrite Hu, Hk. cbn [orb].
  unfold createClient, bind, emit. rewrite X, H. reflexivity.
Qed.

Lemma getSupabaseClient_fails
  (rejection : string -> string -> option JsError) (env : Env) (w : World) :
  supabase w = None -> usable env = false ->
  getSupabaseClient rejection env w =
    (Throw {| message := "Supabase URL and Anon Key are required in environment." |}, w).
Proof.
  intros H U. unfold getSupabaseClient, bind at 1, get_supabase. rewrite H.
  unfold usable, truthy in U.
  destruct (SUPABASE_URL env) as [u|], (SUPABASE_ANON_KEY env) as [k|]; try reflexivity.
  destruct (String.eqb u ""), (String.eqb k ""); try reflexivity. discriminate U.
Qed.

(** The four ways a call can go. *)
Lemma getSupabaseClient_cases
  (rejection : string -> string -> option JsError) (env : Env) (w : World) :
  (exists c, supabase w = Some c /\ getSupabaseClient rejection env w = (Ret (Some c), w)) \/
  (exists url key,
     supabase w = None /\ usable env = true /\
     SUPABASE_URL env = Some url /\ SUPABASE_ANON_KEY env = Some key /\
     rejection url key = None /\
     getSupabaseClient rejection env w =
       (Ret (Some {| client_url := url; client_key := key |}),
        {| supabase := Some {| client_url := url; client_key := key |};
           supabaseServiceRole := supabaseServiceRole w;
           trace := (trace w ++ [Did (CreateClient url key)])%list |})) \/
  (exists url key e,
     supabase w = None /\ usable env = true /\
     SUPABASE_URL env = Some url /\ SUPABASE_ANON_KEY env = Some key /\
     rejection url key = Some e /\
     getSupabaseClient rejection env w =
       (Throw e,
        {| supabase := None;
           supabaseServiceRole := supabaseServiceRole w;
           trace := (trace w ++ [Did (CreateClient url key)])%list |})) \/
  (supabase w = None /\ usable env = false /\
   getSupabaseClient rejection env w =
     (Throw {| message := "Supabase URL and Anon Key are required in environment." |}, w)).
Proof.
  destruct (supabase w) as [c|] eqn:S.
  - left. exists c. split; [reflexivity|]. now apply getSupabaseClient_cached.
  - right. destruct (usable env) eqn:U.
    + pose proof U as U'. apply usable_spec in U' as (url & key & Hu & Hu' & Hk & Hk').
      destruct (rejection url key) as [e|] eqn:X.
      * right. left. exists url, key, e. repeat split; try assumption.
        now apply getSupabaseClient_rejected.
      * left. exists url, key. repeat split; try assumption.
        now apply getSupabaseClient_builds.
    + right. right. repeat split. now apply getSupabaseClient_fails.
Qed.

(** X11: [getSupabaseClient] throws exactly when no client is kept yet and
    either the environment lacks the URL or the anon key, and then it
    changes nothing, or the constructor raises an exception on them, and
    then only the constructor call has happened and still no client is
    kept.  Otherwise it returns a client, never [undefined], keeps it in
    [supabase] and leaves [supabaseServiceRole] alone. *)
Theorem getSupabaseClient_outcome
  (rejection : string -> string -> option JsError) (env : Env) (w : World) :
  ((exists e w', getSupabaseClient rejection env w = (Throw e, w')) <->
   supabase w = None /\
   (usable env = false \/
    exists url key e,
      SUPABASE_URL env = Some url /\ SUPABASE_ANON_KEY env = Some key /\
      rejection url key = Some e)) /\
  (forall e w',
     getSupabaseClient rejection env w = (Throw e, w') ->
     supabase w' = None /\ supabaseServiceRole w' = supabaseServiceRole w /\
     (usable env = false ->
      w' = w /\ message e = "Supabase URL and Anon Key are required in environment.") /\
     (usable env = true ->
      exists url key,
        SUPABASE_URL env = Some url /\ SUPABASE_ANON_KEY env = Some key /\
        rejection url key = Some e /\
        trace w' = (trace w ++ [Did (CreateClient url key)])%list)) /\
  (forall r w',
     getSupabaseClient rejection env w = (Ret r, w') ->
     exists c, r = Some c /\ supabase w' = Some c /\
               supabaseServiceRole w' = supabaseServiceRole w).
Proof.
  destruct (getSupabaseClient_cases rejection env w)
    as [(c & S & E) | [(url & key & S & U & Hu & Hk & X & E)
                      | [(url & key & e & S & U & Hu & Hk & X & E) | (S & U & E)]]];
    rewrite E.
  - split; [split; [intros (e & w' & H); discriminate H | intros [H _]; congruence]|].
    split; [discriminate|]. intros r w' [= <- <-]. now exists c.
  - split; [split; [intros (e & w' & H); discriminate H|]|].
    + intros [_ [H | (url' & key' & e & Hu' & Hk' & X')]]; congruence.
    + split; [discriminate|]. intros r w' [= <- <-]. eexists. repeat split.
  - split; [split; [|eauto]|].
    + intros _. split; [exact S|]. right. now exists url, key, e.
    + split; [|discriminate]. intros e' w' [= <- <-]. cbn [supabase supabaseServiceRole trace].
      split; [reflexivity|]. split; [reflexivity|]. split; [congruence|].
      intros _. now exists url, key.
  - split; [split; [|eauto]|].
    + intros _. split; [exact S|]. now left.
    + split; [|discriminate]. intros e' w' [= <- <-].
      split; [exact S|]. split; [reflexivity|]. split; [now split | congruence].
Qed.

Lemma getSupabaseClient_outcome_witness :
  getSupabaseClient rejects_malformed empty_env fresh
  = (Throw {| message := "Supabase URL and Anon Key are required in environment." |}, fresh) /\
  exists e w',
    getSupabaseClient rejects_malformed placeholder_env fresh = (Throw e, w') /\
    trace w' = [Did (CreateClient "YOUR_SUPABASE_URL_HERE" "YOUR_SUPABASE_ANON_KEY_HERE")].
Proof.
  split; [reflexivity|].
  destruct (proj2 (proj1 (getSupabaseClient_outcome rejects_malformed placeholder_env fresh)))
    as (e & w' & E).
  { split; [reflexivity|]. right.
    now exists "YOUR_SUPABASE_URL_HERE", "YOUR_SUPABASE_ANON_KEY_HERE",
               {| message := "Invalid URL" |}. }
  exists e, w'. split; [exact E|].
  destruct (proj1 (proj2 (getSupabaseClient_outcome rejects_malformed placeholder_env fresh))
              e w' E) as (_ & _ & _ & T).
  destruct (T eq_refl) as (url & key & [= <-] & [= <-] & _ & T'). exact T'.
Defined.

Lemma after_calls_cached
  (rejection : string -> string -> option JsError) (envs : list Env) (w : World) (c : SupabaseClient) :
  supabase w = Some c -> after_calls rejection envs w = w.
Proof.
  intros S. induction envs as [|env envs IH]; [reflexivity|].
  cbn [after_calls]. now rewrite getSupabaseClient_cached with (c := c).
Qed.

(** X12: [getSupabaseClient] memoizes: once a call has returned a client,
    every later call returns that client and changes nothing, whatever
    environment it is given; so in any sequence of calls at most one
    constructor call returns a client. *)
Theorem getSupabaseClient_memoizes
  (rejection : string -> string -> option JsError) :
  (forall (env : Env) (w w1 : World) (r : option SupabaseClient),
     getSupabaseClient rejection env w = (Ret r, w1) ->
     forall env', getSupabaseClient rejection env' w1 = (Ret r, w1)) /\
  (forall (envs : list Env) (w : World),
     clients_built rejection (after_calls rejection envs w)
       <= clients_built rejection w + 1) /\
  (forall envs : list Env, clients_built rejection (after_calls rejection envs fresh) <= 1).
Proof.
  assert (A : forall (env : Env) (w w1 : World) (r : option SupabaseClient),
            getSupabaseClient rejection env w = (Ret r, w1) ->
            forall env', getSupabaseClient rejection env' w1 = (Ret r, w1)).
  { intros env w w1 r H env'.
    destruct (getSupabaseClient_cases rejection env w)
      as [(c & S & E) | [(url & key & S & U & _ & _ & _ & E)
                        | [(url & key & e & S & U & _ & _ & _ & E) | (S & U & E)]]];
      rewrite E in H; try discriminate H; injection H as <- <-;
      now apply getSupabaseClient_cached. }
  assert (B : forall (envs : list Env) (w : World),
            clients_built rejection (after_calls rejection envs w)
              <= clients_built rejection w + 1).
  { induction envs as [|env envs IH]; intros w; cbn [after_calls]; [lia|].
    destruct (getSupabaseClient_cases rejection env w)
      as [(c & S & E) | [(url & key & S & U & _ & _ & X & E)
                        | [(url & key & e & S & U & _ & _ & X & E) | (S & U & E)]]];
      rewrite E; cbn [snd].
    - apply IH.
    - rewrite after_calls_cached with (c := {| client_url := url; client_key := key |})
        by reflexivity.
      unfold clients_built. cbn [trace]. rewrite filter_app, length_app.
      cbn [filter]. rewrite X. cbn. lia.
    - etransitivity; [apply IH|].
      unfold clients_built. cbn [trace]. rewrite filter_app, length_app.
      cbn [filter]. rewrite X. cbn. lia.
    - apply IH. }
  split; [exact A|]. split; [exact B|]. intros envs. apply (B envs fresh).
Qed.

Lemma getSupabaseClient_memoizes_witness :
  getSupabaseClient rejects_malformed other_env
    (snd (getSupabaseClient rejects_malformed project_env fresh))
  = (Ret (Some {| client_url := "https://project.supabase.co"; client_key := "anon-key" |}),
     snd (getSupabaseClient rejects_malformed project_env fresh)) /\
  clients_built rejects_malformed
    (after_calls rejects_malformed [placeholder_env; project_env; other_env] fresh) <= 1.
Proof.
  split.
  - exact (proj1 (getSupabaseClient_memoizes rejects_malformed) project_env fresh
             (snd (getSupabaseClient rejects_malformed project_env fresh))
             (Some {| client_url := "https://project.supabase.co"; client_key := "anon-key" |})
             eq_refl other_env).
  - exact (proj2 (proj2 (getSupabaseClient_memoizes rejects_malformed))
             [placeholder_env; project_env; other_env]).
Defined.

(** X13: [getSupabaseServiceRoleClient] returns [null] with a warning
    whenever the environment has no service key, even when a service-role
    client is kept; with a key it returns the kept client without looking
    at the URL.  With a key and no kept client it throws its own error,
    calling nothing, when the URL is missing; otherwise it calls the
    constructor once and either keeps and returns the client or lets the
    constructor's exception through, keeping nothing.  It never touches
    [supabase]. *)
Theorem getSupabaseServiceRoleClient_outcome
  (rejection : string -> string -> option JsError) (env : Env) (w : World) :
  (truthy (SUPABASE_SERVICE_ROLE_KEY env) = false ->
   getSupabaseServiceRoleClient rejection env w =
     (Ret None,
      {| supabase := supabase w;
         supabaseServiceRole := supabaseServiceRole w;
         trace := (trace w ++ [ConsoleWarn "SUPABASE_SERVICE_ROLE_KEY not provided, service role client will not be available."])%list |})) /\
  (truthy (SUPABASE_SERVICE_ROLE_KEY env) = true ->
   forall c, supabaseServiceRole w = Some c ->
             getSupabaseServiceRoleClient rejection env w = (Ret (Some c), w)) /\
  (truthy (SUPABASE_SERVICE_ROLE_KEY env) = true ->
   supabaseServiceRole w = None ->
   (truthy (SUPABASE_URL env) = false ->
    getSupabaseServiceRoleClient rejection env w =
      (Throw {| message := "Supabase URL is required in environment for service role client." |},
       w)) /\
   (forall url key,
      SUPABASE_URL env = Some url -> url <> "" ->
      SUPABASE_SERVICE_ROLE_KEY env = Some key ->
      getSupabaseServiceRoleClient rejection env w =
        match rejection url key with
        | None =>
            (Ret (Some {| client_url := url; client_key := key |}),
             {| supabase := supabase w;
                supabaseServiceRole := Some {| client_url := url; client_key := key |};
                trace := (trace w ++ [Did (CreateClient url key)])%list |})
        | Some e =>
            (Throw e,
             {| supabase := supabase w;
                supabaseServiceRole := None;
                trace := (trace w ++ [Did (CreateClient url key)])%list |})
        end)) /\
  supabase (snd (getSupabaseServiceRoleClient rejection env w)) = supabase w.
Proof.
  unfold getSupabaseServiceRoleClient.
  destruct (SUPABASE_SERVICE_ROLE_KEY env) as [key|] eqn:K; cbn [truthy].
  - destruct (String.eqb key "") eqn:Ek; cbn [negb].
    + repeat split; try discriminate; reflexivity.
    + split; [discriminate|]. split; [|split].
      * intros _ c S. unfold bind, get_supabaseServiceRole, ret. rewrite S. cbn. now rewrite S.
      * intros _ S.
        unfold bind, get_supabaseServiceRole, createClient, set_supabaseServiceRole,
          emit, ret, throw.
        rewrite S. destruct (SUPABASE_URL env) as [url|] eqn:U; cbn [truthy].
        -- destruct (String.eqb url "") eqn:Eu; cbn [negb].
           ++ split; [reflexivity|].
              intros url' key' [= <-] N. apply String.eqb_neq in N. congruence.
           ++ split; [discriminate|].
              intros url' key' [= <-] _ [= <-]. unfold bind.
              destruct (rejection url key); cbn [supabase supabaseServiceRole trace];
                now rewrite ?S.
        -- split; [reflexivity | discriminate].
      * unfold bind, get_supabaseServiceRole, createClient, set_supabaseServiceRole,
          emit, ret, throw.
        destruct (supabaseServiceRole w) as [c|] eqn:S; [now rewrite S|].
        destruct (SUPABASE_URL env) as [url|]; [|reflexivity].
        destruct (String.eqb url ""); [reflexivity|].
        unfold bind. now destruct (rejection url key).
  - repeat split; try discriminate; reflexivity.
Qed.

Lemma getSupabaseServiceRoleClient_outcome_witness :
  let kept :=
    {| supabase := None;
       supabaseServiceRole := Some {| client_url := "https://project.supabase.co";
                                      client_key := "service-key" |};
       trace := [] |} in
  fst (getSupabaseServiceRoleClient rejects_malformed project_env kept) = Ret None /\
  getSupabaseServiceRoleClient rejects_malformed other_env kept
  = (Ret (Some {| client_url := "https://project.supabase.co"; client_key := "service-key" |}),
     kept) /\
  fst (getSupabaseServiceRoleClient rejects_malformed placeholder_env fresh)
  = Throw {| message := "Invalid URL" |}.
Proof.
  intros kept. split; [|split].
  - now rewrite (proj1 (getSupabaseServiceRoleClient_outcome rejects_malformed project_env kept)
                   eq_refl).
  - exact (proj1 (proj2 (getSupabaseServiceRoleClient_outcome rejects_malformed other_env kept))
             eq_refl _ eq_refl).
  - rewrite (proj2 (proj1 (proj2 (proj2 (getSupabaseServiceRoleClient_outcome
                                           rejects_malformed placeholder_env fresh)))
                      eq_refl eq_refl)
               "YOUR_SUPABASE_URL_HERE" "YOUR_SUPABASE_SERVICE_ROLE_KEY_HERE_IF_NEEDED"
               eq_refl) by (discriminate || reflexivity).
    reflexivity.
Defined.

(** ** The earlier agent *)

Section AgentFacts.

Variable rejection : string -> string -> option JsError.
Variable env : Env.
Variable backend : SupabaseClient -> string -> json -> RpcResponse.

(** With a client in hand the handler issues one remote call; its answer
    is decided by what the call settles to. *)
Lemma list_tables_with_client (w w1 : World) (c : SupabaseClient) :
  getSupabaseClient rejection env w = (Ret (Some c), w1) ->
  let called := (trace w1 ++ [Did (Rpc c "execute_sql" (JObj [("query", JStr listTablesSql)]))])%list in
  let world logs :=
    {| supabase := supabase w1; supabaseServiceRole := supabaseServiceRole w1;
       trace := (called ++ logs)%list |} in
  list_tables_handler rejection env backend tt w =
    match backend c "execute_sql" (JObj [("query", JStr listTablesSql)]) with
    | Resolved data (Some error) =>
        (Ret (Failure ("Failed to list tables: " ++ message error)),
         world [Did (ConsoleError "Error from list_tables RPC:")])
    | Resolved data None =>
        match ListTablesOutputSchema data with
        | None =>
            (Ret (Failure "Failed to parse list_tables output."),
             world [Did (ConsoleError "Failed to parse list_tables output:")])
        | Some parsed => (Ret (Ok (JSON_stringify parsed 2)), world [])
        end
    | Rejected e =>
        (Ret (Failure ("Exception: " ++ message e)),
         world [Did (ConsoleError "Exception in list_tables tool:")])
    end.
Proof.
  intros G called world. unfold list_tables_handler, bind at 1. rewrite G.
  unfold try_catch, rpc, bind, emit, console_error, emit, ret, throw.
  subst called world. cbn [supabase supabaseServiceRole trace fst snd].
  destruct (backend _ _ _) as [data [err|]|e];
    cbn [supabase supabaseServiceRole trace fst snd message].
  - reflexivity.
  - destruct (ListTablesOutputSchema data);
      cbn [supabase supabaseServiceRole trace]; now rewrite ?app_nil_r.
  - reflexivity.
Qed.

(** An exception of [getSupabaseClient] leaves the handler as it is. *)
Lemma list_tables_without_client (w w1 : World) (e : JsError) :
  getSupabaseClient rejection env w = (Throw e, w1) ->
  list_tables_handler rejection env backend tt w = (Throw e, w1).
Proof.
  intros G. unfold list_tables_handler, bind. now rewrite G.
Qed.

(** [init] never throws: it keeps or builds the client, or logs that it
    could not. *)
Lemma init_cases (w : World) :
  (exists c, supabase w = Some c /\ init rejection env w = (Ret tt, w)) \/
  (exists url key,
     supabase w = None /\ usable env = true /\
     SUPABASE_URL env = Some url /\ SUPABASE_ANON_KEY env = Some key /\
     rejection url key = None /\
     init rejection env w =
       (Ret tt,
        {| supabase := Some {| client_url := url; client_key := key |};
           supabaseServiceRole := supabaseServiceRole w;
           trace := (trace w ++ [Did (CreateClient url key)])%list |})) \/
  (exists url key e,
     supabase w = None /\ usable env = true /\
     SUPABASE_URL env = Some url /\ SUPABASE_ANON_KEY env = Some key /\
     rejection url key = Some e /\
     init rejection env w =
       (Ret tt,
        {| supabase := None;
           supabaseServiceRole := supabaseServiceRole w;
           trace := (trace w ++
                     [Did (CreateClient url key);
                      Did (ConsoleError "Error initializing Supabase client in MyMCP init:")])%list |})) \/
  (supabase w = None /\ usable env = false /\
   init rejection env w =
     (Ret tt,
      {| supabase := None;
         supabaseServiceRole := supabaseServiceRole w;
         trace := (trace w ++ [Did (ConsoleError "Error initializing Supabase client in MyMCP init:")])%list |})).
Proof.
  unfold init, try_catch, bind.
  destruct (getSupabaseClient_cases rejection env w)
    as [(c & S & E) | [(url & key & S & U & Hu & Hk & X & E)
                      | [(url & key & e & S & U & Hu & Hk & X & E) | (S & U & E)]]];
    rewrite E.
  - left. now exists c.
  - right. left. now exists url, key.
  - right. right. left. exists url, key, e. repeat split; try assumption.
    unfold console_error, emit. cbn [supabase supabaseServiceRole trace].
    now rewrite <- app_assoc.
  - right. right. right. repeat split; try assumption.
    unfold console_error, emit. now rewrite S.
Qed.

End AgentFacts.

(** X14: the earlier [list_tables] handler throws exactly when
    [getSupabaseClient] does, that is when no client is kept and the
    environment lacks the URL or the anon key or the constructor raises
    an exception on them; the exception leaves the handler with nothing
    else done.  Its answer "Error: Supabase client not available." is
    never given. *)
Theorem legacy_list_tables_throws
  (rejection : string -> string -> option JsError) (env : Env)
  (backend : SupabaseClient -> string -> json -> RpcResponse) (w : World) :
  ((exists e w', list_tables_handler rejection env backend tt w = (Throw e, w')) <->
   supabase w = None /\
   (usable env = false \/
    exists url key e,
      SUPABASE_URL env = Some url /\ SUPABASE_ANON_KEY env = Some key /\
      rejection url key = Some e)) /\
  (forall e w',
     list_tables_handler rejection env backend tt w = (Throw e, w') <->
     getSupabaseClient rejection env w = (Throw e, w')) /\
  (forall r w',
     list_tables_handler rejection env backend tt w = (Ret r, w') ->
     r <> Failure "Error: Supabase client not available.").
Proof.
  assert (R : forall c w1,
            getSupabaseClient rejection env w = (Ret (Some c), w1) ->
            exists r w',
              list_tables_handler rejection env backend tt w = (Ret r, w') /\
              r <> Failure "Error: Supabase client not available.").
  { intros c w1 G. rewrite (list_tables_with_client rejection env backend w w1 c G).
    destruct (backend _ _ _) as [data [err|]|e].
    - eexists. eexists. split; [reflexivity|]. cbn. discriminate.
    - destruct (ListTablesOutputSchema data); eexists; eexists;
        (split; [reflexivity|]); discriminate.
    - eexists. eexists. split; [reflexivity|]. cbn. discriminate. }
  destruct (getSupabaseClient_cases rejection env w)
    as [(c & S & E) | [(url & key & S & U & Hu & Hk & X & E)
                      | [(url & key & e & S & U & Hu & Hk & X & E) | (S & U & E)]]].
  - destruct (R _ _ E) as (r & w' & H & N). rewrite H, E.
    split; [split; [intros (e & w2 & Y); discriminate Y | intros [Y _]; congruence]|].
    split; [split; discriminate|]. now intros r' w2 [= <- <-].
  - destruct (R _ _ E) as (r & w' & H & N). rewrite H, E.
    split; [split; [intros (e & w2 & Y); discriminate Y|]|].
    + intros [_ [Y | (url' & key' & e & Hu' & Hk' & X')]]; congruence.
    + split; [split; discriminate|]. now intros r' w2 [= <- <-].
  - rewrite (list_tables_without_client rejection env backend w _ e E), E.
    split; [split; [|eauto]|].
    + intros _. split; [exact S|]. right. now exists url, key, e.
    + split; [intros e' w'; split; intros [= <- <-]; reflexivity | discriminate].
  - rewrite (list_tables_without_client rejection env backend w _ _ E), E.
    split; [split; [|eauto]|].
    + intros _. split; [exact S|]. now left.
    + split; [intros e' w'; split; intros [= <- <-]; reflexivity | discriminate].
Qed.

Lemma legacy_list_tables_throws_witness :
  list_tables_handler rejects_malformed empty_env empty_database tt fresh
  = (Throw {| message := "Supabase URL and Anon Key are required in environment." |}, fresh) /\
  exists w',
    list_tables_handler rejects_malformed placeholder_env empty_database tt fresh
    = (Throw {| message := "Invalid URL" |}, w').
Proof.
  split.
  - exact (proj2 (proj1 (proj2 (legacy_list_tables_throws rejects_malformed empty_env
                                  empty_database fresh)) _ _) eq_refl).
  - eexists.
    exact (proj2 (proj1 (proj2 (legacy_list_tables_throws rejects_malformed placeholder_env
                                  empty_database fresh)) _ _) eq_refl).
Defined.

(** X15: [init] never throws.  When a client is kept after it, every
    later [list_tables] call returns a tool result, whatever environment
    and remote database it meets, and asks the remote database through
    that same client, which, if [init] built it, comes from the URL and
    the anon key of the environment.  When none is kept, the environment
    lacks a credential or the constructor raised an exception, [init] has
    logged one console line, and a later [list_tables] call under the
    same environment throws. *)
Theorem legacy_init_primes_client
  (rejection : string -> string -> option JsError) (env0 : Env) (w : World) :
  let w1 := snd (init rejection env0 w) in
  fst (init rejection env0 w) = Ret tt /\
  (supabase w1 = None ->
   supabase w = None /\
   (usable env0 = false \/
    exists url key e,
      SUPABASE_URL env0 = Some url /\ SUPABASE_ANON_KEY env0 = Some key /\
      rejection url key = Some e) /\
   (exists called,
      trace w1 =
        (trace w ++ called ++
         [Did (ConsoleError "Error initializing Supabase client in MyMCP init:")])%list) /\
   forall backend, exists e w2,
     list_tables_handler rejection env0 backend tt w1 = (Throw e, w2)) /\
  (forall c,
     supabase w1 = Some c ->
     (supabase w = None ->
      SUPABASE_URL env0 = Some (client_url c) /\ SUPABASE_ANON_KEY env0 = Some (client_key c) /\
      rejection (client_url c) (client_key c) = None) /\
     forall env backend,
       exists r logs,
         list_tables_handler rejection env backend tt w1 =
           (Ret r,
            {| supabase := Some c; supabaseServiceRole := supabaseServiceRole w1;
               trace := (trace w1 ++
                         Did (Rpc c "execute_sql" (JObj [("query", JStr listTablesSql)]))
                         :: logs)%list |})).
Proof.
  intros w1. subst w1.
  assert (P : forall w1 c,
            supabase w1 = Some c ->
            forall env backend,
              exists r logs,
                list_tables_handler rejection env backend tt w1 =
                  (Ret r,
                   {| supabase := Some c; supabaseServiceRole := supabaseServiceRole w1;
                      trace := (trace w1 ++
                                Did (Rpc c "execute_sql" (JObj [("query", JStr listTablesSql)]))
                                :: logs)%list |})).
  { intros w1 c S env backend.
    rewrite (list_tables_with_client rejection env backend w1 w1 c
               (getSupabaseClient_cached rejection env w1 c S)).
    rewrite S.
    destruct (backend _ _ _) as [data [err|]|e]; try (eexists; eexists; now rewrite <- app_assoc).
    destruct (ListTablesOutputSchema data); eexists; eexists; now rewrite <- app_assoc. }
  assert (T : forall w1,
            supabase w1 = None ->
            (usable env0 = false \/
             exists url key e,
               SUPABASE_URL env0 = Some url /\ SUPABASE_ANON_KEY env0 = Some key /\
               rejection url key = Some e) ->
            forall backend, exists e w2,
              list_tables_handler rejection env0 backend tt w1 = (Throw e, w2)).
  { intros w1 S H backend.
    destruct (getSupabaseClient_cases rejection env0 w1)
      as [(c & S' & E) | [(url & key & S' & U & Hu & Hk & X & E)
                         | [(url & key & e & S' & U & Hu & Hk & X & E) | (S' & U & E)]]].
    - congruence.
    - destruct H as [H | (url' & key' & e & Hu' & Hk' & X')]; congruence.
    - eexists. eexists. apply list_tables_without_client. exact E.
    - eexists. eexists. apply list_tables_without_client. exact E. }
  destruct (init_cases rejection env0 w)
    as [(c & S & E) | [(url & key & S & U & Hu & Hk & X & E)
                      | [(url & key & e & S & U & Hu & Hk & X & E) | (S & U & E)]]];
    rewrite E; cbn [fst snd].
  - split; [reflexivity|]. split; [congruence|]. intros c' S'.
    split; [congruence|]. apply P. congruence.
  - split; [reflexivity|]. split; [discriminate|]. intros c' [= <-].
    split; [now repeat split|]. now apply P.
  - split; [reflexivity|]. split; [|discriminate]. intros _.
    assert (H : usable env0 = false \/
                exists url key e,
                  SUPABASE_URL env0 = Some url /\ SUPABASE_ANON_KEY env0 = Some key /\
                  rejection url key = Some e).
    { right. now exists url, key, e. }
    split; [exact S|]. split; [exact H|]. split.
    + exists [Did (CreateClient url key)]. reflexivity.
    + now apply T.
  - split; [reflexivity|]. split; [|discriminate]. intros _.
    split; [exact S|]. split; [now left|]. split.
    + exists []. reflexivity.
    + apply T; [reflexivity | now left].
Qed.

Lemma legacy_init_primes_client_witness :
  let w1 := snd (init rejects_malformed project_env fresh) in
  (exists r logs,
     list_tables_handler rejects_malformed empty_env unreachable_database tt w1 =
       (Ret r,
        {| supabase := Some {| client_url := "https://project.supabase.co";
                               client_key := "anon-key" |};
           supabaseServiceRole := None;
           trace := (trace w1 ++
                     Did (Rpc {| client_url := "https://project.supabase.co";
                                 client_key := "anon-key" |}
                            "execute_sql" (JObj [("query", JStr listTablesSql)]))
                     :: logs)%list |})) /\
  exists e w2,
    list_tables_handler rejects_malformed placeholder_env empty_database tt
      (snd (init rejects_malformed placeholder_env fresh)) = (Throw e, w2).
Proof.
  intros w1. split.
  - exact (proj2 (proj2 (proj2 (legacy_init_primes_client rejects_malformed project_env fresh))
                    _ eq_refl) empty_env unreachable_database).
  - exact (proj2 (proj2 (proj2 (proj1 (proj2 (legacy_init_primes_client rejects_malformed
                                                placeholder_env fresh)) eq_refl)))
             empty_database).
Defined.

End LegacyFacts.

(** Both variants send the same query, laid out differently. *)
Example same_query : Legacy.words Legacy.listTablesSql = listTablesSql.
Proof. vm_compute. reflexivity. Qed.
